(** * filter_coverage.py: removal of virtual-destructor records from LCOV data

    A shallow embedding of [src/filter_coverage.py] and the properties of
    its transformation.

    Modelling conventions.
    - Python text ([str]) is a [string]: a sequence of 8-bit characters, read
      as the code points below 256.  Code points from 256 on are outside the
      model (they only matter to [str.strip] and [int], which know further
      white-space and digit characters there).
    - Python integers are [Z]; the interpreter's optional limit on the number
      of digits converted by [int] and [str] is not modelled.
    - Exceptions are the left summand of [result]; the file system and the
      standard output are an explicit [world] threaded through [filter_lcov].
      A file holds text; reading it in text mode translates the line ends
      CR LF and CR to LF, writing it leaves the text as it is.
    - Of the ways the files can fail, the model has two: a path that cannot
      be opened for reading, and a path that cannot be opened for writing.
      Bytes that do not decode, a write or a [print] that fails once the
      output file is open, and two paths that name one file are outside
      the model.

    The file has four parts: the primitives of Python the script calls
    (module [Py]) and the script itself; the vocabulary of the properties;
    lemmas on strings, on the partition into sections and on the two loops;
    the properties, one theorem for each. *)

From Stdlib Require Import String Ascii List ZArith Lia Bool Decimal DecimalString DecimalZ.
Import ListNotations.
Local Open Scope list_scope.
Local Open Scope string_scope.

(** ** Python primitives used by the script *)

Module Py.

(** The exceptions the script can raise: [int] on a malformed number, [open]
    on a path that cannot be read or written. *)
Inductive exn : Type :=
| ValueError
| OSError.

Definition result (A : Type) : Type := (exn + A)%type.

Definition ret {A : Type} (a : A) : result A := inr a.
Definition raise {A : Type} (e : exn) : result A := inl e.

Definition bind {A B : Type} (m : result A) (k : A -> result B) : result B :=
  match m with
  | inl e => inl e
  | inr a => k a
  end.

(** A [for] loop whose body updates a state and may raise. *)
Fixpoint for_each {St A : Type} (body : St -> A -> result St)
         (l : list A) (st : St) : result St :=
  match l with
  | [] => ret st
  | x :: rest => bind (body st x) (for_each body rest)
  end.

Definition newline : ascii := "010"%char.
Definition NL : string := String newline "".

(** [s.startswith(p)] *)
Definition startswith (s p : string) : bool := String.prefix p s.

(** [s.split(sep)] for a separator of one character. *)
Fixpoint split (sep : ascii) (s : string) : list string :=
  match s with
  | "" => [""]
  | String c rest =>
      if (c =? sep)%char then "" :: split sep rest
      else match split sep rest with
           | hd :: tl => String c hd :: tl
           | [] => [String c ""]
           end
  end.

(** [sep.join(ls)] *)
Definition join (sep : string) (ls : list string) : string := String.concat sep ls.

(** [''.join(ls)] *)
Definition concat_all (ls : list string) : string := String.concat "" ls.

(** White space as [str.strip] sees it, for code points below 256:
    U+0009..U+000D, U+001C..U+0020, U+0085 and U+00A0. *)
Definition isspace (c : ascii) : bool :=
  let n := nat_of_ascii c in
  (((9 <=? n) && (n <=? 13)) || ((28 <=? n) && (n <=? 32))
   || (n =? 133) || (n =? 160))%nat.

(** White space as [int] skips it around a number: the same set without
    U+001C..U+001F. *)
Definition int_isspace (c : ascii) : bool :=
  let n := nat_of_ascii c in
  (((9 <=? n) && (n <=? 13)) || (n =? 32) || (n =? 133) || (n =? 160))%nat.

Fixpoint lstrip_by (p : ascii -> bool) (s : string) : string :=
  match s with
  | "" => ""
  | String c rest => if p c then lstrip_by p rest else s
  end.

Fixpoint rstrip_by (p : ascii -> bool) (s : string) : string :=
  match s with
  | "" => ""
  | String c rest =>
      match rstrip_by p rest with
      | "" => if p c then "" else String c ""
      | t => String c t
      end
  end.

(** [s.strip()] *)
Definition strip (s : string) : string := rstrip_by isspace (lstrip_by isspace s).

(** Truth value of a string in a condition: non-empty. *)
Definition truthy (s : string) : bool :=
  match s with
  | "" => false
  | String _ _ => true
  end.

(** The digits of a decimal literal: digits, single underscores allowed
    between two digits only.  [after_digit] tells that the previous character
    was a digit. *)
Fixpoint digits_of (after_digit : bool) (s : string) : option uint :=
  match s with
  | "" => if after_digit then Some Nil else None
  | String c rest =>
      if (c =? "_")%char then
        if after_digit then digits_of false rest else None
      else uint_of_char c (digits_of true rest)
  end.

(** [int(s)]: white space around, an optional sign, then the digits;
    [None] stands for [ValueError]. *)
Definition int (s : string) : option Z :=
  match rstrip_by int_isspace (lstrip_by int_isspace s) with
  | String "-" r => option_map (fun u => Z.opp (Z.of_uint u)) (digits_of false r)
  | String "+" r => option_map Z.of_uint (digits_of false r)
  | t => option_map Z.of_uint (digits_of false t)
  end.

(** [str(n)], as an f-string renders an integer. *)
Definition str (n : Z) : string := NilZero.string_of_int (Z.to_int n).

(** [re.match(r'D[012]Ev', s)] as a truth value: the pattern matches at the
    start of [s]. *)
Definition destructor_at (s : string) : bool :=
  startswith s "D0Ev" || startswith s "D1Ev" || startswith s "D2Ev".

(** [re.search(r'D[012]Ev', s)] as a truth value: the pattern matches
    somewhere in [s]. *)
Fixpoint search_destructor (s : string) : bool :=
  match s with
  | "" => false
  | String _ rest => destructor_at s || search_destructor rest
  end.

(** The first newline of [s]: the text through it, and the text after it. *)
Fixpoint through_newline (s : string) : option (string * string) :=
  match s with
  | "" => None
  | String c rest =>
      if (c =? newline)%char then Some (String c "", rest)
      else match through_newline rest with
           | Some (a, b) => Some (String c a, b)
           | None => None
           end
  end.

(** [re.match(r'SF:.*?\n', s)]: the match and the text after it.  A dot
    matches every character but the newline, so the match ends at the first
    newline after the prefix. *)
Definition match_marker (s : string) : option (string * string) :=
  match s with
  | String "S" (String "F" (String ":" r)) =>
      match through_newline r with
      | Some (a, b) => Some ("SF:" ++ a, b)
      | None => None
      end
  | _ => None
  end.

(** [re.search(r'SF:.*?\n', s)]: the text before the leftmost match, the
    match, the text after it. *)
Fixpoint search_marker (s : string) : option (string * string * string) :=
  match match_marker s with
  | Some (m, rest) => Some ("", m, rest)
  | None =>
      match s with
      | "" => None
      | String c s' =>
          match search_marker s' with
          | Some (pre, m, rest) => Some (String c pre, m, rest)
          | None => None
          end
      end
  end.

(** [re.split(r'(SF:.*?\n)', s)]: the pieces between successive matches,
    interleaved with the matches themselves (the pattern is one capturing
    group).  Every match consumes at least four characters, so [length s]
    rounds are enough. *)
Fixpoint re_split_fuel (fuel : nat) (s : string) : list string :=
  match fuel with
  | O => [s]
  | S n =>
      match search_marker s with
      | None => [s]
      | Some (pre, m, rest) => pre :: m :: re_split_fuel n rest
      end
  end.

Definition re_split (s : string) : list string := re_split_fuel (String.length s) s.

End Py.

Import Py.
Local Open Scope Z_scope.

(** ** The script *)

(** The local variables of [filter_lcov] that the two loops update. *)
Record locals : Type := mkLocals {
  output_sections : list string;
  total_filtered : Z;
  filtered_lines : list string;
  fnf_adjust : Z;
  fnh_adjust : Z
}.

(** [filtered_lines.append(line)] *)
Definition append_line (st : locals) (line : string) : locals :=
  {| output_sections := output_sections st;
     total_filtered := total_filtered st;
     filtered_lines := (filtered_lines st ++ [line])%list;
     fnf_adjust := fnf_adjust st;
     fnh_adjust := fnh_adjust st |}.

(** [output_sections.append(section)] *)
Definition append_section (st : locals) (section : string) : locals :=
  {| output_sections := (output_sections st ++ [section])%list;
     total_filtered := total_filtered st;
     filtered_lines := filtered_lines st;
     fnf_adjust := fnf_adjust st;
     fnh_adjust := fnh_adjust st |}.

(** [total_filtered += 1; fnf_adjust += 1] *)
Definition count_removed (st : locals) : locals :=
  {| output_sections := output_sections st;
     total_filtered := total_filtered st + 1;
     filtered_lines := filtered_lines st;
     fnf_adjust := fnf_adjust st + 1;
     fnh_adjust := fnh_adjust st |}.

(** [fnh_adjust += 1] *)
Definition count_hit (st : locals) : locals :=
  {| output_sections := output_sections st;
     total_filtered := total_filtered st;
     filtered_lines := filtered_lines st;
     fnf_adjust := fnf_adjust st;
     fnh_adjust := fnh_adjust st + 1 |}.

(** [filtered_lines = []; fnf_adjust = 0; fnh_adjust = 0] *)
Definition enter_section (st : locals) : locals :=
  {| output_sections := output_sections st;
     total_filtered := total_filtered st;
     filtered_lines := [];
     fnf_adjust := 0;
     fnh_adjust := 0 |}.

(** The line starts with [FN:], [FNDA:] or [FNA:]. *)
Definition is_function_record (line : string) : bool :=
  startswith line "FN:" || startswith line "FNDA:" || startswith line "FNA:".

(** The condition of the first [if] of the inner loop. *)
Definition is_destructor_entry (line : string) : bool :=
  is_function_record line && search_destructor line.

(** [int(line.split(sep)[1])], used where the list is known to have a second
    element. *)
Definition int_field (sep : ascii) (line : string) : option Z :=
  int (nth 1 (split sep line) "").

(** The body of [for line in lines]. *)
Definition line_body (st : locals) (line : string) : result locals :=
  if is_destructor_entry line then
    let st := count_removed st in
    if startswith line "FNA:" then
      if (2 <=? List.length (split "," line))%nat then
        match int_field "," line with
        | None => raise ValueError
        | Some hits => if 0 <? hits then ret (count_hit st) else ret st
        end
      else ret st
    else ret st
  else if startswith line "FNF:" then
    match int_field ":" line with
    | None => raise ValueError
    | Some old_count =>
        let new_count := old_count - fnf_adjust st in
        ret (append_line st ("FNF:" ++ str new_count))
    end
  else if startswith line "FNH:" then
    match int_field ":" line with
    | None => raise ValueError
    | Some old_count =>
        let new_count := old_count - fnh_adjust st in
        ret (append_line st ("FNH:" ++ str new_count))
    end
  else ret (append_line st line).

(** The body of [for i, section in enumerate(sections)]. *)
Definition section_body (st : locals) (section : string) : result locals :=
  if startswith section "SF:" then ret (append_section st section)
  else if truthy (strip section) then
    let lines := split newline section in
    bind (for_each line_body lines (enter_section st))
         (fun st => ret (append_section st (join NL (filtered_lines st))))
  else ret st.

Definition initial_locals : locals :=
  {| output_sections := [];
     total_filtered := 0;
     filtered_lines := [];
     fnf_adjust := 0;
     fnh_adjust := 0 |}.

(** [filter_lcov] between reading the input and writing the output: from
    the text read to the text written and the number printed. *)
Definition filter_content (content : string) : result (string * Z) :=
  let sections := re_split content in
  bind (for_each section_body sections initial_locals)
       (fun st => ret (concat_all (output_sections st), total_filtered st)).

(** *** Files *)

(** The part of the environment the script touches: the text of the files
    that can be read, the paths that can be opened for writing, and the
    lines printed so far. *)
Record world : Type := mkWorld {
  files : string -> option string;
  writable : string -> bool;
  stdout : list string
}.

Definition carriage_return : ascii := "013"%char.

(** Text mode on reading translates the line ends CR LF and CR to LF. *)
Fixpoint universal_newlines (s : string) : string :=
  match s with
  | "" => ""
  | String c rest =>
      if (c =? carriage_return)%char then
        match rest with
        | String c2 rest2 =>
            if (c2 =? newline)%char then String newline (universal_newlines rest2)
            else String newline (universal_newlines rest)
        | "" => NL
        end
      else String c (universal_newlines rest)
  end.

(** [with open(path, 'w') as f: f.write(text)] on a writable path. *)
Definition write_file (w : world) (path text : string) : world :=
  {| files := fun p => if (p =? path)%string then Some text else files w p;
     writable := writable w;
     stdout := stdout w |}.

(** [print(line)] *)
Definition print (w : world) (line : string) : world :=
  {| files := files w;
     writable := writable w;
     stdout := (stdout w ++ [line])%list |}.

(** [filter_lcov(input_file, output_file)]: the outcome and the world it
    leaves, also when an exception escapes. *)
Definition filter_lcov (input_file output_file : string) (w : world)
  : result unit * world :=
  match files w input_file with
  | None => (raise OSError, w)
  | Some text =>
      let content := universal_newlines text in
      match filter_content content with
      | inl e => (raise e, w)
      | inr (out, total) =>
          if writable w output_file then
            let w := write_file w output_file out in
            (ret tt, print w ("Filtered " ++ str total ++ " destructor entries"))
          else (raise OSError, w)
      end
  end.

(** *** The command line *)





(** ** Vocabulary of the properties *)

(** *** Characters and occurrences *)

(** Every character of [s] satisfies [p]. *)
Fixpoint all_chars (p : ascii -> bool) (s : string) : bool :=
  match s with
  | "" => true
  | String c rest => p c && all_chars p rest
  end.

(** [c] is another character than [sep]. *)
Definition is_not (sep c : ascii) : bool := negb (c =? sep)%char.

(** [p] occurs in [s]. *)
Fixpoint contains (p s : string) : bool :=
  match s with
  | "" => String.prefix p ""
  | String _ rest => String.prefix p s || contains p rest
  end.

Definition free_of_SF (l : string) : bool := negb (contains "SF:" l).

(** [p] holds of every element but the last. *)
Fixpoint all_but_last {A : Type} (p : A -> bool) (ls : list A) : bool :=
  match ls with
  | [] => true
  | x :: tl =>
      match tl with
      | [] => true
      | _ :: _ => p x && all_but_last p tl
      end
  end.

Definition is_digit (c : ascii) : bool :=
  let n := nat_of_ascii c in ((48 <=? n) && (n <=? 57))%nat.

(** The characters [str] produces: digits and the minus sign. *)
Definition is_numeral (c : ascii) : bool := is_digit c || (c =? "-")%char.

Definition sum_Z (l : list Z) : Z := fold_right Z.add 0 l.

(** *** Lines and sections *)

(** The section is one the inner loop runs on: not passed through as a
    marker, and not skipped as white space. *)
Definition is_content (section : string) : bool :=
  negb (startswith section "SF:") && truthy (strip section).

(** [line] is a line of a section of the document that is not passed
    through as a marker. *)
Definition content_line (content line : string) : Prop :=
  exists section,
    In section (re_split content)
    /\ startswith section "SF:" = false
    /\ In line (split newline section).

(** The line starts with [FNF:] or [FNH:]. *)
Definition is_summary (line : string) : bool :=
  startswith line "FNF:" || startswith line "FNH:".

(** The line starts with none of [FN:], [FNDA:], [FNA:], [FNF:], [FNH:]. *)
Definition passes_through (line : string) : bool :=
  negb (is_function_record line || is_summary line).

(** A removed line that counts as hit: an [FNA:] line with a second field
    greater than 0. *)
Definition is_hit_entry (line : string) : bool :=
  is_destructor_entry line && startswith line "FNA:"
  && (2 <=? List.length (split "," line))%nat
  && match int_field "," line with
     | Some hits => 0 <? hits
     | None => false
     end.

(** The number of lines the loop removes from [lines]. *)
Definition removed_count (lines : list string) : Z :=
  Z.of_nat (List.length (filter is_destructor_entry lines)).

(** The number of removed lines that count as hit. *)
Definition removed_hit_count (lines : list string) : Z :=
  Z.of_nat (List.length (filter is_hit_entry lines)).

(** None of the lines is removed. *)
Definition clean (lines : list string) : Prop :=
  forall line, In line lines -> is_destructor_entry line = false.

(** Every [FN:], [FNDA:] and [FNA:] line stands before every [FNF:] and
    [FNH:] line. *)
Fixpoint records_precede_summaries (lines : list string) : bool :=
  match lines with
  | [] => true
  | line :: rest =>
      if is_summary line
      then forallb (fun l => negb (is_function_record l)) rest
      else records_precede_summaries rest
  end.

(** *** The partition *)

(** The text of a match of [SF:.*?\n]. *)
Definition is_marker_text (m : string) : Prop :=
  exists body, m = "SF:" ++ body ++ NL /\ all_chars (is_not newline) body = true.

(** No occurrence of [SF:] in [s] has a newline after it. *)
Definition unmatched (s : string) : Prop :=
  forall a b, s = a ++ "SF:" ++ b -> all_chars (is_not newline) b = true.

(** What [re.split] returns: pieces free of [SF:] alternating with matches,
    and a last piece in which the pattern matches nowhere. *)
Fixpoint partitioned (segs : list string) : Prop :=
  match segs with
  | [] => False
  | pre :: tl =>
      match tl with
      | [] => unmatched pre
      | m :: rest => contains "SF:" pre = false /\ is_marker_text m /\ partitioned rest
      end
  end.

(** The lines of a text that end in a newline and start with [SF:], each
    with its newline: the marker lines as the specification describes
    them. *)
Definition marker_lines (s : string) : list string :=
  map (fun l => l ++ NL)
      (filter (fun l => startswith l "SF:") (removelast (split newline s))).

(** The sections the outer loop passes through as markers. *)
Definition marker_sections (sections : list string) : list string :=
  filter (fun section => startswith section "SF:") sections.

(** *** The loops in closed form *)

(** The line makes the body of the inner loop raise. *)
Definition line_fails (line : string) : bool :=
  if is_destructor_entry line then
    startswith line "FNA:" && (2 <=? List.length (split "," line))%nat
    && match int_field "," line with None => true | Some _ => false end
  else if is_summary line then
    match int_field ":" line with None => true | Some _ => false end
  else false.

(** The lines one input line adds to [filtered_lines], the adjustments
    standing at [fnf] and [fnh]. *)
Definition line_out (fnf fnh : Z) (line : string) : list string :=
  if is_destructor_entry line then []
  else if startswith line "FNF:" then
    match int_field ":" line with
    | Some old_count => ["FNF:" ++ str (old_count - fnf)]
    | None => []
    end
  else if startswith line "FNH:" then
    match int_field ":" line with
    | Some old_count => ["FNH:" ++ str (old_count - fnh)]
    | None => []
    end
  else [line].

(** The state after the body of the inner loop has run on a line that does
    not make it raise. *)
Definition line_step (st : locals) (line : string) : locals :=
  {| output_sections := output_sections st;
     total_filtered := total_filtered st + Z.b2z (is_destructor_entry line);
     filtered_lines :=
       (filtered_lines st ++ line_out (fnf_adjust st) (fnh_adjust st) line)%list;
     fnf_adjust := fnf_adjust st + Z.b2z (is_destructor_entry line);
     fnh_adjust := fnh_adjust st + Z.b2z (is_hit_entry line) |}.

(** The lines the inner loop adds to [filtered_lines], started with the
    adjustments at [fnf] and [fnh]. *)
Fixpoint lines_out (fnf fnh : Z) (lines : list string) : list string :=
  match lines with
  | [] => []
  | line :: rest =>
      (line_out fnf fnh line
       ++ lines_out (fnf + Z.b2z (is_destructor_entry line))
                    (fnh + Z.b2z (is_hit_entry line)) rest)%list
  end.

(** The state after the inner loop has run on lines none of which makes it
    raise. *)
Definition lines_step (st : locals) (lines : list string) : locals :=
  {| output_sections := output_sections st;
     total_filtered := total_filtered st + removed_count lines;
     filtered_lines :=
       (filtered_lines st ++ lines_out (fnf_adjust st) (fnh_adjust st) lines)%list;
     fnf_adjust := fnf_adjust st + removed_count lines;
     fnh_adjust := fnh_adjust st + removed_hit_count lines |}.

(** The section makes the body of the outer loop raise. *)
Definition section_fails (section : string) : bool :=
  is_content section && existsb line_fails (split newline section).

(** The text a section contributes to the output. *)
Definition section_text (section : string) : string :=
  if startswith section "SF:" then section
  else if truthy (strip section) then
    join NL (lines_out 0 0 (split newline section))
  else "".

(** The number of lines removed from a section. *)
Definition section_removed (section : string) : Z :=
  if is_content section then removed_count (split newline section) else 0.

(** One section run alone: the body of the outer loop from the initial
    state, with the text and the count it leaves. *)
Definition run_section (section : string) : result (string * Z) :=
  bind (section_body initial_locals section)
       (fun st => ret (concat_all (output_sections st), total_filtered st)).

(** A line as the loop leaves it when nothing is removed: a summary line
    with its number rendered anew, any other line as it is. *)
Definition canonical (line : string) : string :=
  if startswith line "FNF:" then
    match int_field ":" line with
    | Some n => "FNF:" ++ str n
    | None => line
    end
  else if startswith line "FNH:" then
    match int_field ":" line with
    | Some n => "FNH:" ++ str n
    | None => line
    end
  else line.

(** *** The section as the specification words it *)

(** The filtered section in two passes: [removed] and [hits] are the
    numbers of removed lines and of removed lines that count as hit, over
    the whole section; every removed line is dropped, an [FNF:] line carries
    its number minus [removed], an [FNH:] line its number minus [hits], any
    other line is kept.  [None] when a summary line carries no number. *)
Definition expected_line (removed hits : Z) (line : string) : option (list string) :=
  if is_destructor_entry line then Some []
  else if startswith line "FNF:" then
    option_map (fun n => ["FNF:" ++ str (n - removed)]) (int_field ":" line)
  else if startswith line "FNH:" then
    option_map (fun n => ["FNH:" ++ str (n - hits)]) (int_field ":" line)
  else Some [line].

Fixpoint expected_lines (removed hits : Z) (lines : list string)
  : option (list string) :=
  match lines with
  | [] => Some []
  | line :: rest =>
      match expected_line removed hits line, expected_lines removed hits rest with
      | Some a, Some b => Some (a ++ b)%list
      | _, _ => None
      end
  end.

Definition expected_section (lines : list string) : option (list string) :=
  expected_lines (removed_count lines) (removed_hit_count lines) lines.

(** *** Example documents *)

(** Scenario A of the specification. *)
Definition scenario_A_input : string :=
  "SF:a.cpp" ++ NL ++ "FN:1,_ZN1XD0Ev" ++ NL ++ "FNDA:3,_ZN1XD0Ev" ++ NL
  ++ "FN:2,real" ++ NL ++ "FNDA:0,real" ++ NL ++ "FNF:2" ++ NL ++ "FNH:1" ++ NL
  ++ "end_of_record" ++ NL.

Definition scenario_A_output : string :=
  "SF:a.cpp" ++ NL ++ "FN:2,real" ++ NL ++ "FNDA:0,real" ++ NL
  ++ "FNF:0" ++ NL ++ "FNH:1" ++ NL ++ "end_of_record" ++ NL.

(** Two sections, a destructor record in each. *)
Definition two_sections_input : string :=
  "SF:a.cpp" ++ NL ++ "FN:1,_ZN1XD0Ev" ++ NL ++ "FNF:1" ++ NL
  ++ "SF:b.cpp" ++ NL ++ "FN:1,_ZN1YD1Ev" ++ NL ++ "FN:2,f" ++ NL ++ "FNF:2" ++ NL.

Definition two_sections_output : string :=
  "SF:a.cpp" ++ NL ++ "FNF:0" ++ NL
  ++ "SF:b.cpp" ++ NL ++ "FN:2,f" ++ NL ++ "FNF:1" ++ NL.

(** A document without destructor records that the loop still rewrites:
    a blank line before the first marker, summary lines not in the form
    [str] gives them. *)
Definition unfiltered_input : string :=
  NL ++ "SF:a.cpp" ++ NL ++ "FN:2,real" ++ NL ++ "FNF: 01 " ++ NL ++ "FNH:+0:x" ++ NL
  ++ "end_of_record" ++ NL ++ " " ++ NL ++ "SF:b.cpp" ++ NL ++ "end_of_record".

Definition unfiltered_output : string :=
  "SF:a.cpp" ++ NL ++ "FN:2,real" ++ NL ++ "FNF:1" ++ NL ++ "FNH:0" ++ NL
  ++ "end_of_record" ++ NL ++ " " ++ NL ++ "SF:b.cpp" ++ NL ++ "end_of_record".

(** One [SF:] line, and a function whose name holds [SF:]: the partition
    cuts the section inside the second record line. *)
Definition marker_in_record_section : string :=
  "FN:1,_ZN1XD0Ev" ++ NL ++ "FN:2,SF::run()" ++ NL ++ "FNF:2" ++ NL
  ++ "end_of_record" ++ NL.

Definition marker_in_record_input : string :=
  "SF:a.cpp" ++ NL ++ marker_in_record_section.

(** *** The removal criterion in words *)

(** The line starts with [FN:], [FNDA:] or [FNA:]. *)
Definition has_record_prefix (line : string) : Prop :=
  exists r, line = "FN:" ++ r \/ line = "FNDA:" ++ r \/ line = "FNA:" ++ r.

(** Somewhere in the line stands [D], then one of the digits 0, 1 and 2,
    then [Ev]. *)
Definition has_destructor_pattern (line : string) : Prop :=
  exists a d b,
    line = a ++ String "D" (String d ("Ev" ++ b))
    /\ (d = "0" \/ d = "1" \/ d = "2")%char.

(** *** Further vocabulary *)

(** A world with one readable file, every path writable, nothing printed. *)
Definition world_of (path text : string) : world :=
  {| files := fun p => if (p =? path)%string then Some text else None;
     writable := fun _ => true;
     stdout := [] |}.

(** The line carries a number the loop parses and cannot: the hit count of
    an [FNA:] line that is being removed, or the count of a summary line. *)
Definition malformed (line : string) : Prop :=
  (startswith line "FNA:" = true
   /\ search_destructor line = true
   /\ (2 <= List.length (split "," line))%nat
   /\ int_field "," line = None)
  \/ (is_summary line = true /\ int_field ":" line = None).

(** [k] is what the loop writes for the line [l] it does not remove, in a
    section from which it removes [removed] lines, [hits] of them counting
    as hit: [l] itself, or for a summary line the prefix and the number of
    [l] less an adjustment between 0 and [removed] ([hits] for [FNH:]). *)
Definition kept_as (removed hits : Z) (l k : string) : Prop :=
  (is_summary l = false /\ k = l)
  \/ (exists n adjust,
         startswith l "FNF:" = true /\ int_field ":" l = Some n
         /\ 0 <= adjust <= removed /\ k = "FNF:" ++ str (n - adjust))
  \/ (exists n adjust,
         startswith l "FNH:" = true /\ int_field ":" l = Some n
         /\ 0 <= adjust <= hits /\ k = "FNH:" ++ str (n - adjust)).

(** The text is empty or ends with a newline. *)
Fixpoint ends_line (s : string) : bool :=
  match s with
  | "" => true
  | String c rest =>
      match rest with
      | "" => (c =? newline)%char
      | String _ _ => ends_line rest
      end
  end.

(** The line is one the loop removes or rewrites. *)
Definition is_rewritten (line : string) : bool :=
  is_destructor_entry line || is_summary line.


(** The numbers of the document stay clear of the limit of 4300 digits that
    the interpreter puts on [int] and [str] unless told otherwise, and that
    the model leaves out: no line of a section that is not a marker has more
    than 4300 characters, so no number read has more digits, and the
    document has fewer than 10^4000 characters, so that no adjustment
    carries a number written beyond the limit. *)
Definition within_digit_limit (content : string) : Prop :=
  (forall line,
      content_line content line -> Z.of_nat (String.length line) <= 4300)
  /\ Z.of_nat (String.length content) < 10 ^ 4000.
(** ** Strings *)

Lemma append_empty_r (s : string) : s ++ "" = s.
Proof. induction s as [|c s IH]; simpl; [reflexivity | now rewrite IH]. Qed.

Lemma append_assoc3 (a b c : string) : (a ++ b) ++ c = a ++ (b ++ c).
Proof. induction a as [|x a IH]; simpl; [reflexivity | now rewrite IH]. Qed.

Lemma prefix_app (p r : string) : String.prefix p (p ++ r) = true.
Proof.
  induction p as [|c p IH]; simpl.
  - now destruct r.
  - destruct (ascii_dec c c) as [_|N]; [exact IH | now elim N].
Qed.

Lemma prefix_inv (p s : string) :
  String.prefix p s = true -> exists r, s = p ++ r.
Proof.
  revert s; induction p as [|c p IH]; intros s H.
  - now exists s.
  - destruct s as [|d s]; simpl in H; [discriminate|].
    destruct (ascii_dec c d) as [->|]; [|discriminate].
    destruct (IH _ H) as [r ->]. now exists r.
Qed.

Lemma prefix_extend (p s r : string) :
  String.prefix p s = true -> String.prefix p (s ++ r) = true.
Proof.
  intros H. destruct (prefix_inv _ _ H) as [t ->].
  rewrite append_assoc3. apply prefix_app.
Qed.

Lemma all_chars_app (p : ascii -> bool) (a b : string) :
  all_chars p (a ++ b) = all_chars p a && all_chars p b.
Proof.
  induction a as [|c a IH]; simpl; [reflexivity|].
  now rewrite IH, andb_assoc.
Qed.

Lemma all_chars_weaken (p q : ascii -> bool) (s : string) :
  (forall c, p c = true -> q c = true) ->
  all_chars p s = true -> all_chars q s = true.
Proof.
  intros Hpq. induction s as [|c s IH]; simpl; [easy|].
  intros H. apply andb_true_iff in H as [Hc Hs].
  now rewrite (Hpq _ Hc), IH.
Qed.

(** ** [split] and [join] *)

Lemma split_not_nil (sep : ascii) (s : string) : split sep s <> [].
Proof.
  destruct s as [|c s]; simpl; [discriminate|].
  destruct (c =? sep)%char; [discriminate|].
  destruct (split sep s); discriminate.
Qed.

Lemma split_cons_other (sep c : ascii) (s : string) :
  (c =? sep)%char = false ->
  exists hd tl, split sep s = hd :: tl /\ split sep (String c s) = String c hd :: tl.
Proof.
  intros Hc. simpl. rewrite Hc.
  destruct (split sep s) as [|hd tl] eqn:E.
  - now elim (split_not_nil sep s).
  - now exists hd, tl.
Qed.

Lemma join_cons (sep x y : string) (l : list string) :
  join sep (x :: y :: l) = x ++ sep ++ join sep (y :: l).
Proof. reflexivity. Qed.

Lemma join_split (sep : ascii) (s : string) :
  join (String sep "") (split sep s) = s.
Proof.
  induction s as [|c s IH]; [reflexivity|].
  destruct (c =? sep)%char eqn:Hc.
  - cbn [split]. rewrite Hc. apply Ascii.eqb_eq in Hc as ->.
    destruct (split sep s) as [|hd tl] eqn:E; [now elim (split_not_nil sep s)|].
    rewrite join_cons. cbn [append]. now rewrite IH.
  - destruct (split_cons_other sep c s Hc) as (hd & tl & E & ->).
    rewrite E in IH. destruct tl as [|y tl].
    + cbn in *. now rewrite IH.
    + rewrite join_cons in *. cbn [append] in *. now rewrite IH.
Qed.

Lemma split_lines_no_sep (sep : ascii) (s : string) :
  Forall (fun l => all_chars (is_not sep) l = true) (split sep s).
Proof.
  induction s as [|c s IH]; simpl.
  - now constructor.
  - destruct (c =? sep)%char eqn:Hc.
    + now constructor.
    + destruct (split sep s) as [|hd tl] eqn:E; [now elim (split_not_nil sep s)|].
      inversion IH; subst. constructor; [|assumption].
      simpl. unfold is_not at 1. now rewrite Hc.
Qed.

Lemma split_no_sep (sep : ascii) (s : string) :
  all_chars (is_not sep) s = true -> split sep s = [s].
Proof.
  induction s as [|c s IH]; simpl; [reflexivity|].
  intros H. apply andb_true_iff in H as [Hc Hs].
  unfold is_not in Hc. apply negb_true_iff in Hc. rewrite Hc.
  now rewrite (IH Hs).
Qed.

Lemma split_app_no_sep (sep : ascii) (a b : string) :
  all_chars (is_not sep) a = true ->
  exists hd tl, split sep b = hd :: tl /\ split sep (a ++ b) = (a ++ hd) :: tl.
Proof.
  intros Ha. induction a as [|c a IH]; simpl.
  - destruct (split sep b) as [|hd tl] eqn:E; [now elim (split_not_nil sep b)|].
    now exists hd, tl.
  - simpl in Ha. apply andb_true_iff in Ha as [Hc Ha].
    unfold is_not in Hc. apply negb_true_iff in Hc. rewrite Hc.
    destruct (IH Ha) as (hd & tl & E & ->). now exists hd, tl.
Qed.

Lemma split_app_sep (sep : ascii) (a b : string) :
  split sep (a ++ String sep b) = (split sep a ++ split sep b)%list.
Proof.
  induction a as [|c a IH]; simpl.
  - now rewrite Ascii.eqb_refl.
  - destruct (c =? sep)%char; [now rewrite IH|].
    rewrite IH. destruct (split sep a) as [|hd tl] eqn:E; [now elim (split_not_nil sep a)|].
    reflexivity.
Qed.

Lemma split_join (sep : ascii) (ls : list string) :
  ls <> [] ->
  Forall (fun l => all_chars (is_not sep) l = true) ls ->
  split sep (join (String sep "") ls) = ls.
Proof.
  induction ls as [|x ls IH]; [easy|]. intros _ H.
  inversion H as [|? ? Hx Hls]; subst.
  destruct ls as [|y ls].
  - simpl. now apply split_no_sep.
  - rewrite join_cons.
    change (x ++ String sep "" ++ join (String sep "") (y :: ls))
      with (x ++ String sep (join (String sep "") (y :: ls))).
    rewrite split_app_sep, (split_no_sep _ _ Hx), IH; [reflexivity|discriminate|assumption].
Qed.

(** ** [int] and [str] *)

Lemma string_of_uint_digits (u : uint) :
  all_chars is_digit (NilEmpty.string_of_uint u) = true.
Proof. induction u; simpl; auto. Qed.

Lemma digits_of_string_of_uint (u : uint) :
  digits_of true (NilEmpty.string_of_uint u) = Some u.
Proof. induction u; simpl; try rewrite IHu; reflexivity. Qed.

Lemma digits_of_nonnil (u : uint) :
  u <> Nil -> digits_of false (NilEmpty.string_of_uint u) = Some u.
Proof.
  destruct u; intros H; try (now elim H);
    simpl; now rewrite digits_of_string_of_uint.
Qed.

Lemma str_numeral (n : Z) : all_chars is_numeral (str n) = true.
Proof.
  assert (D : forall u, all_chars is_numeral (NilZero.string_of_uint u) = true).
  { intros u. destruct u; try reflexivity;
      apply all_chars_weaken with (p := is_digit);
      try apply (string_of_uint_digits (_ u));
      intros c Hc; unfold is_numeral; now rewrite Hc. }
  unfold str. destruct (Z.to_int n) as [u|u]; simpl.
  - apply D.
  - apply D.
Qed.

Lemma lstrip_by_none (p : ascii -> bool) (s : string) :
  all_chars (fun c => negb (p c)) s = true -> lstrip_by p s = s.
Proof.
  destruct s as [|c s]; simpl; [reflexivity|].
  intros H. apply andb_true_iff in H as [Hc _].
  apply negb_true_iff in Hc. now rewrite Hc.
Qed.

Lemma rstrip_by_none (p : ascii -> bool) (s : string) :
  all_chars (fun c => negb (p c)) s = true -> rstrip_by p s = s.
Proof.
  induction s as [|c s IH]; simpl; [reflexivity|].
  intros H. apply andb_true_iff in H as [Hc Hs].
  apply negb_true_iff in Hc. rewrite (IH Hs), Hc. now destruct s.
Qed.

Lemma numeral_not_int_space (c : ascii) :
  is_numeral c = true -> negb (int_isspace c) = true.
Proof.
  destruct c as [[] [] [] [] [] [] [] []]; try reflexivity; discriminate.
Qed.

(** [int] reads back what [str] writes. *)
Lemma int_str (n : Z) : int (str n) = Some n.
Proof.
  unfold int.
  assert (Hs : all_chars (fun c => negb (int_isspace c)) (str n) = true).
  { apply all_chars_weaken with (p := is_numeral);
      [apply numeral_not_int_space | apply str_numeral]. }
  rewrite (lstrip_by_none _ _ Hs), (rstrip_by_none _ _ Hs).
  assert (P : forall u, u <> Nil ->
            option_map Z.of_uint (digits_of false (NilEmpty.string_of_uint u))
            = Some (Z.of_uint u)).
  { intros u Hu. now rewrite (digits_of_nonnil u Hu). }
  assert (Q : forall u, u <> Nil ->
            match NilEmpty.string_of_uint u with
            | String "-" r => option_map (fun u => Z.opp (Z.of_uint u)) (digits_of false r)
            | String "+" r => option_map Z.of_uint (digits_of false r)
            | t => option_map Z.of_uint (digits_of false t)
            end = Some (Z.of_uint u)).
  { intros u Hu. rewrite <- (P u Hu).
    destruct u; try (now elim Hu); reflexivity. }
  rewrite <- (DecimalZ.of_to n) at 2. unfold str.
  destruct n as [|p|p]; cbn [Z.to_int].
  - reflexivity.
  - pose proof (DecimalPos.Unsigned.to_uint_nonnil p) as Hp.
    cbn [NilZero.string_of_int Z.of_int].
    replace (NilZero.string_of_uint (Pos.to_uint p))
      with (NilEmpty.string_of_uint (Pos.to_uint p))
      by (destruct (Pos.to_uint p); [now elim Hp | reflexivity ..]).
    now apply Q.
  - pose proof (DecimalPos.Unsigned.to_uint_nonnil p) as Hp.
    cbn [NilZero.string_of_int Z.of_int].
    replace (NilZero.string_of_uint (Pos.to_uint p))
      with (NilEmpty.string_of_uint (Pos.to_uint p))
      by (destruct (Pos.to_uint p); [now elim Hp | reflexivity ..]).
    cbn match. now rewrite (digits_of_nonnil _ Hp).
Qed.

(** ** The partition into sections *)

Lemma length_append (a b : string) :
  String.length (a ++ b) = (String.length a + String.length b)%nat.
Proof. induction a as [|c a IH]; simpl; [reflexivity | now rewrite IH]. Qed.

Lemma through_newline_some (r a b : string) :
  through_newline r = Some (a, b) ->
  r = a ++ b /\ exists body, a = body ++ NL /\ all_chars (is_not newline) body = true.
Proof.
  revert a b; induction r as [|c r IH]; intros a b; simpl; [discriminate|].
  destruct (c =? newline)%char eqn:Hc.
  - intros [= <- <-]. apply Ascii.eqb_eq in Hc as ->. split; [reflexivity|].
    now exists "".
  - destruct (through_newline r) as [[a' b']|]; [|discriminate].
    intros [= <- <-]. destruct (IH _ _ eq_refl) as (-> & body & -> & Hb).
    split; [reflexivity|]. exists (String c body). split; [reflexivity|].
    simpl. unfold is_not at 1. now rewrite Hc.
Qed.

Lemma through_newline_app (body rest : string) :
  all_chars (is_not newline) body = true ->
  through_newline (body ++ NL ++ rest) = Some (body ++ NL, rest).
Proof.
  unfold NL. induction body as [|c body IH]; simpl; [reflexivity|].
  intros H. apply andb_true_iff in H as [Hc Hb].
  unfold is_not in Hc. apply negb_true_iff in Hc. rewrite Hc.
  simpl in IH. now rewrite (IH Hb).
Qed.

Lemma through_newline_none (r : string) :
  through_newline r = None <-> all_chars (is_not newline) r = true.
Proof.
  induction r as [|c r IH]; simpl; [easy|]. unfold is_not at 1.
  destruct (c =? newline)%char; simpl; [easy|].
  destruct (through_newline r) as [[a b]|]; [|tauto].
  split; [discriminate|]. intros H. now apply IH in H.
Qed.

Lemma match_marker_no_prefix (s : string) :
  String.prefix "SF:" s = false -> match_marker s = None.
Proof.
  destruct s as [|c1 s]; [reflexivity|].
  destruct c1 as [[] [] [] [] [] [] [] []]; try reflexivity.
  destruct s as [|c2 s]; [reflexivity|].
  destruct c2 as [[] [] [] [] [] [] [] []]; try reflexivity.
  destruct s as [|c3 s]; [reflexivity|].
  destruct c3 as [[] [] [] [] [] [] [] []]; try reflexivity.
  intros H. change (String.prefix "SF:" ("SF:" ++ s) = false) in H.
  rewrite prefix_app in H. discriminate.
Qed.

Lemma match_marker_prefix (r : string) :
  match_marker ("SF:" ++ r) =
  match through_newline r with
  | Some (a, b) => Some ("SF:" ++ a, b)
  | None => None
  end.
Proof. reflexivity. Qed.

Lemma match_marker_some (s m rest : string) :
  match_marker s = Some (m, rest) -> s = m ++ rest /\ is_marker_text m.
Proof.
  destruct (String.prefix "SF:" s) eqn:Hp.
  - destruct (prefix_inv _ _ Hp) as [r ->]. rewrite match_marker_prefix.
    destruct (through_newline r) as [[a b]|] eqn:E; [|discriminate].
    intros [= <- <-]. destruct (through_newline_some _ _ _ E) as (-> & body & -> & Hb).
    split; [reflexivity|]. now exists body.
  - now rewrite (match_marker_no_prefix _ Hp).
Qed.

Lemma match_marker_app (m rest : string) :
  is_marker_text m -> match_marker (m ++ rest) = Some (m, rest).
Proof.
  intros (body & -> & Hb).
  replace (("SF:" ++ body ++ NL) ++ rest) with ("SF:" ++ body ++ NL ++ rest)
    by (cbn [append]; now rewrite append_assoc3).
  rewrite match_marker_prefix, (through_newline_app _ _ Hb). reflexivity.
Qed.

Lemma through_newline_app_some (a x : string) (y : string) :
  through_newline (a ++ NL ++ y) = None -> False.
Proof.
  intros H. apply through_newline_none in H.
  rewrite all_chars_app in H. apply andb_true_iff in H as [_ H]. discriminate.
Qed.

Lemma search_marker_some (s pre m rest : string) :
  search_marker s = Some (pre, m, rest) ->
  s = pre ++ m ++ rest /\ contains "SF:" pre = false /\ is_marker_text m.
Proof.
  revert pre; induction s as [|c s IH]; intros pre.
  - discriminate.
  - cbn [search_marker]. destruct (match_marker (String c s)) as [[m' rest']|] eqn:E.
    + intros [= <- <- <-]. destruct (match_marker_some _ _ _ E) as [-> Hm].
      split; [reflexivity|]. split; [reflexivity | assumption].
    + destruct (search_marker s) as [[[pre' m'] rest']|] eqn:Es; [|discriminate].
      intros [= <- <- <-]. destruct (IH _ eq_refl) as (-> & Hc & Hm).
      split; [reflexivity|]. split; [|assumption].
      cbn [contains]. rewrite Hc, orb_false_r.
      destruct (String.prefix "SF:" (String c pre')) eqn:Hp; [|reflexivity].
      exfalso. destruct (prefix_inv _ _ Hp) as [t Ht].
      destruct Hm as (body & -> & _).
      change (String c (pre' ++ ("SF:" ++ body ++ NL) ++ rest'))
        with (String c pre' ++ ("SF:" ++ body ++ NL) ++ rest') in E.
      rewrite Ht in E.
      replace (("SF:" ++ t) ++ ("SF:" ++ body ++ NL) ++ rest')
        with ("SF:" ++ (t ++ "SF:" ++ body) ++ NL ++ rest') in E
        by (cbn [append]; repeat rewrite append_assoc3; reflexivity).
      rewrite match_marker_prefix in E.
      destruct (through_newline ((t ++ "SF:" ++ body) ++ NL ++ rest')) as [[a b]|] eqn:T;
        [discriminate|].
      now apply through_newline_app_some in T.
Qed.

Lemma search_marker_shorter (s pre m rest : string) :
  search_marker s = Some (pre, m, rest) ->
  (String.length rest < String.length s)%nat.
Proof.
  intros H. destruct (search_marker_some _ _ _ _ H) as (-> & _ & body & -> & _).
  rewrite !length_append. simpl. lia.
Qed.

Lemma re_split_fuel_enough (n k : nat) (s : string) :
  (String.length s <= n)%nat -> (String.length s <= k)%nat ->
  re_split_fuel n s = re_split_fuel k s.
Proof.
  revert k s; induction n as [|n IH]; intros k s Hn Hk.
  - destruct s; [|simpl in Hn; lia]. now destruct k.
  - destruct k as [|k].
    + destruct s; [reflexivity | simpl in Hk; lia].
    + simpl. destruct (search_marker s) as [[[pre m] rest]|] eqn:E; [|reflexivity].
      apply search_marker_shorter in E. do 2 f_equal. apply IH; lia.
Qed.

(** The equation of [re.split]: total, enough fuel being supplied. *)
Lemma re_split_eq (s : string) :
  re_split s =
  match search_marker s with
  | None => [s]
  | Some (pre, m, rest) => pre :: m :: re_split rest
  end.
Proof.
  unfold re_split. destruct s as [|c s]; [reflexivity|].
  cbn [String.length re_split_fuel].
  destruct (search_marker (String c s)) as [[[pre m] rest]|] eqn:E; [|reflexivity].
  apply search_marker_shorter in E. cbn [String.length] in E.
  do 2 f_equal. apply re_split_fuel_enough; lia.
Qed.

(** Induction along the matches found by [re.split]. *)
Lemma re_split_ind (P : string -> list string -> Prop) :
  (forall s, search_marker s = None -> P s [s]) ->
  (forall pre m rest,
      search_marker (pre ++ m ++ rest) = Some (pre, m, rest) ->
      P rest (re_split rest) ->
      P (pre ++ m ++ rest) (pre :: m :: re_split rest)) ->
  forall s, P s (re_split s).
Proof.
  intros Hnone Hsome s.
  remember (String.length s) as n eqn:Hn.
  revert s Hn. induction n as [n IH] using lt_wf_ind. intros s ->.
  rewrite re_split_eq.
  destruct (search_marker s) as [[[pre m] rest]|] eqn:E.
  - pose proof (search_marker_shorter _ _ _ _ E) as Hlt.
    destruct (search_marker_some _ _ _ _ E) as (Hs & _).
    rewrite Hs in E |- *. apply Hsome; [assumption|].
    apply (IH _ Hlt). reflexivity.
  - now apply Hnone.
Qed.

Lemma concat_all_cons (x : string) (l : list string) :
  concat_all (x :: l) = x ++ concat_all l.
Proof.
  destruct l as [|y l]; cbn; [now rewrite append_empty_r | reflexivity].
Qed.

Lemma concat_all_app (l1 l2 : list string) :
  concat_all (l1 ++ l2) = concat_all l1 ++ concat_all l2.
Proof.
  induction l1 as [|x l1 IH]; [reflexivity|].
  change ((x :: l1) ++ l2)%list with (x :: (l1 ++ l2))%list.
  now rewrite !concat_all_cons, IH, append_assoc3.
Qed.

Lemma search_marker_eq (s : string) :
  search_marker s =
  match match_marker s with
  | Some (m, rest) => Some ("", m, rest)
  | None =>
      match s with
      | "" => None
      | String c s' =>
          match search_marker s' with
          | Some (pre, m, rest) => Some (String c pre, m, rest)
          | None => None
          end
      end
  end.
Proof. destruct s; reflexivity. Qed.

Lemma prefix_empty (s : string) : String.prefix "" s = true.
Proof. now destruct s. Qed.

Lemma prefix_SF_app (a x : string) :
  a <> "" -> String.prefix "SF:" a = false ->
  String.prefix "SF:" (a ++ "SF:" ++ x) = false.
Proof.
  intros Ha. destruct a as [|c1 [|c2 [|c3 a]]]; [now elim Ha| | |];
    cbn [String.prefix append].
  - intros _. destruct (ascii_dec "S" c1); [|reflexivity].
    destruct (ascii_dec "F" "S"); [discriminate | reflexivity].
  - intros _. destruct (ascii_dec "S" c1); [|reflexivity].
    destruct (ascii_dec "F" c2); [|reflexivity].
    destruct (ascii_dec ":" "S"); [discriminate | reflexivity].
  - destruct (ascii_dec "S" c1); [|reflexivity].
    destruct (ascii_dec "F" c2); [|reflexivity].
    destruct (ascii_dec ":" c3); [|reflexivity].
    now rewrite !prefix_empty.
Qed.

(** A marker after text without [SF:] is the leftmost match. *)
Lemma search_marker_app (pre m rest : string) :
  contains "SF:" pre = false -> is_marker_text m ->
  search_marker (pre ++ m ++ rest) = Some (pre, m, rest).
Proof.
  intros Hc Hm. induction pre as [|c pre IH].
  - cbn [append]. rewrite search_marker_eq, (match_marker_app _ _ Hm). reflexivity.
  - cbn [contains] in Hc. apply orb_false_iff in Hc as [Hp Hc].
    rewrite search_marker_eq.
    assert (E : match_marker (String c pre ++ m ++ rest) = None).
    { apply match_marker_no_prefix. destruct Hm as (body & -> & _).
      rewrite append_assoc3. apply prefix_SF_app; [discriminate | assumption]. }
    rewrite E. cbn [append]. now rewrite (IH Hc).
Qed.

Lemma unmatched_iff (s : string) : unmatched s <-> search_marker s = None.
Proof.
  split.
  - intros H. destruct (search_marker s) as [[[pre m] rest]|] eqn:E; [|reflexivity].
    destruct (search_marker_some _ _ _ _ E) as (Hs & _ & body & -> & _).
    rewrite !append_assoc3 in Hs. apply H in Hs.
    rewrite !all_chars_app in Hs. apply andb_true_iff in Hs as [_ Hs].
    apply andb_true_iff in Hs as [Hs _]. discriminate.
  - intros H a. revert s H. induction a as [|c a IH]; intros s H b ->.
    + rewrite search_marker_eq in H. change ("" ++ "SF:" ++ b) with ("SF:" ++ b) in H.
      rewrite match_marker_prefix in H.
      destruct (through_newline b) as [[x y]|] eqn:T; [discriminate|].
      now apply through_newline_none.
    + rewrite search_marker_eq in H.
      change (String c a ++ "SF:" ++ b) with (String c (a ++ "SF:" ++ b)) in H.
      destruct (match_marker (String c (a ++ "SF:" ++ b))) as [[x y]|]; [discriminate|].
      destruct (search_marker (a ++ "SF:" ++ b)) as [[[x y] z]|] eqn:E; [discriminate|].
      exact (IH _ E b eq_refl).
Qed.

Lemma re_split_partitioned (s : string) : partitioned (re_split s).
Proof.
  apply re_split_ind with (P := fun _ segs => partitioned segs).
  - intros t H. now apply unmatched_iff.
  - intros pre m rest E IH. apply search_marker_some in E as (_ & Hc & Hm).
    cbn [partitioned]. auto.
Qed.

Lemma re_split_concat (s : string) : concat_all (re_split s) = s.
Proof.
  apply re_split_ind with (P := fun t segs => concat_all segs = t).
  - reflexivity.
  - intros pre m rest _ IH. now rewrite !concat_all_cons, IH.
Qed.

(** The partition is determined by its shape. *)
Lemma re_split_unique (segs : list string) :
  partitioned segs -> re_split (concat_all segs) = segs.
Proof.
  remember (List.length segs) as n eqn:Hn. revert segs Hn.
  induction n as [n IH] using lt_wf_ind. intros segs -> H.
  destruct segs as [|pre [|m rest]]; cbn [partitioned] in H.
  - contradiction.
  - change (concat_all [pre]) with pre.
    rewrite re_split_eq. apply unmatched_iff in H. now rewrite H.
  - destruct H as (Hc & Hm & Hr).
    rewrite !concat_all_cons, re_split_eq, (search_marker_app _ _ _ Hc Hm).
    do 2 f_equal. apply (IH (List.length rest)); [simpl; lia | reflexivity | assumption].
Qed.

(** ** Lines and the partition *)

(** A text starts with a newline-free [p] exactly when its first line does. *)
Lemma prefix_first_line (p s hd : string) (tl : list string) :
  all_chars (is_not newline) p = true ->
  split newline s = hd :: tl ->
  String.prefix p s = String.prefix p hd.
Proof.
  revert s hd tl. induction p as [|a p IH]; intros s hd tl Hp Hs.
  - now rewrite !prefix_empty.
  - cbn [all_chars] in Hp. apply andb_true_iff in Hp as [Ha Hp].
    unfold is_not in Ha. apply negb_true_iff in Ha.
    destruct s as [|c s].
    + cbn in Hs. now injection Hs as <- <-.
    + destruct (c =? newline)%char eqn:Hc.
      * cbn [split] in Hs. rewrite Hc in Hs. injection Hs as <- <-.
        apply Ascii.eqb_eq in Hc as ->. cbn [String.prefix].
        destruct (ascii_dec a newline) as [->|]; [|reflexivity].
        now rewrite Ascii.eqb_refl in Ha.
      * destruct (split_cons_other newline c s Hc) as (hd' & tl' & E & E').
        rewrite E' in Hs. injection Hs as <- <-. cbn [String.prefix].
        destruct (ascii_dec a c); [|reflexivity]. exact (IH _ _ _ Hp E).
Qed.

Lemma first_line_text (s hd : string) :
  split newline s = [hd] -> s = hd /\ all_chars (is_not newline) s = true.
Proof.
  intros E. pose proof (join_split newline s) as J.
  pose proof (split_lines_no_sep newline s) as F. rewrite E in J, F.
  cbn in J. subst hd. split; [reflexivity|]. now inversion F.
Qed.

Lemma match_marker_none_no_newline (s : string) :
  all_chars (is_not newline) s = true -> match_marker s = None.
Proof.
  intros H. destruct (String.prefix "SF:" s) eqn:Hp.
  - destruct (prefix_inv _ _ Hp) as [r ->]. rewrite match_marker_prefix.
    rewrite all_chars_app in H. apply andb_true_iff in H as [_ H].
    apply through_newline_none in H. now rewrite H.
  - now apply match_marker_no_prefix.
Qed.

Lemma contains_SF_lines (s : string) :
  free_of_SF s = forallb free_of_SF (split newline s).
Proof.
  unfold free_of_SF. induction s as [|c s IH]; [reflexivity|].
  cbn [contains]. destruct (c =? newline)%char eqn:Hc.
  - cbn [split]. rewrite Hc. apply Ascii.eqb_eq in Hc as ->.
    cbn [forallb]. rewrite <- IH. reflexivity.
  - destruct (split_cons_other newline c s Hc) as (hd & tl & E & E').
    rewrite (prefix_first_line "SF:" _ _ _ eq_refl E'), E'.
    rewrite E in IH. cbn [forallb contains] in *.
    rewrite !negb_orb, IH. now rewrite andb_assoc.
Qed.

Lemma search_marker_lines (s : string) :
  search_marker s = None <-> all_but_last free_of_SF (split newline s) = true.
Proof.
  induction s as [|c s IH]; [easy|].
  rewrite search_marker_eq.
  destruct (c =? newline)%char eqn:Hc.
  - cbn [split]. rewrite Hc. apply Ascii.eqb_eq in Hc as ->.
    rewrite match_marker_no_prefix by reflexivity.
    destruct (split newline s) as [|hd tl] eqn:E; [now elim (split_not_nil newline s)|].
    cbn [all_but_last]. change (free_of_SF "") with true. cbn [andb].
    destruct (search_marker s) as [[[x y] z]|]; [|exact IH].
    split; [discriminate|]. intros H. now apply IH in H.
  - destruct (split_cons_other newline c s Hc) as (hd & tl & E & E').
    rewrite E'. rewrite E in IH. destruct tl as [|y tl].
    + destruct (first_line_text _ _ E') as [_ Hn].
      rewrite (match_marker_none_no_newline _ Hn).
      cbn [all_but_last] in *. destruct (search_marker s) as [[[x y] z]|]; [|easy].
      assert (N : Some (x, y, z) = @None (string * string * string)) by now apply IH.
      discriminate.
    + cbn [all_but_last] in *. unfold free_of_SF at 1. cbn [contains].
      rewrite negb_orb. fold (free_of_SF hd).
      destruct (String.prefix "SF:" (String c hd)) eqn:Hp.
      * cbn [negb andb]. split; [|discriminate]. intros H. exfalso.
        destruct (prefix_inv _ _ Hp) as [t Ht].
        pose proof (join_split newline (String c s)) as J. rewrite E' in J.
        rewrite join_cons, Ht in J.
        pose proof (split_lines_no_sep newline (String c s)) as F. rewrite E' in F.
        inversion F as [|? ? Hhd _]; subst. rewrite Ht in Hhd.
        rewrite all_chars_app in Hhd. apply andb_true_iff in Hhd as [_ Hhd].
        rewrite <- J in H. rewrite append_assoc3 in H.
        rewrite match_marker_prefix in H.
        change (String newline "") with NL in H.
        now rewrite (through_newline_app _ _ Hhd) in H.
      * rewrite (match_marker_no_prefix (String c s))
          by (now rewrite (prefix_first_line "SF:" _ _ _ eq_refl E')).
        cbn [negb andb]. destruct (search_marker s) as [[[x z] w]|]; [|easy].
        split; [discriminate|]. intros H. now apply IH in H.
Qed.

(** ** White space *)

Lemma rstrip_by_truthy (p : ascii -> bool) (s : string) :
  truthy (rstrip_by p s) = negb (all_chars p s).
Proof.
  induction s as [|c s IH]; [reflexivity|]. cbn [rstrip_by all_chars].
  destruct (rstrip_by p s); cbn [truthy] in *.
  - apply (f_equal negb) in IH. rewrite negb_involutive in IH. rewrite <- IH.
    destruct (p c); reflexivity.
  - apply (f_equal negb) in IH. rewrite negb_involutive in IH. rewrite <- IH.
    now rewrite andb_false_r.
Qed.

Lemma lstrip_by_all (p : ascii -> bool) (s : string) :
  all_chars p (lstrip_by p s) = all_chars p s.
Proof.
  induction s as [|c s IH]; [reflexivity|]. cbn [lstrip_by].
  destruct (p c) eqn:Hc; [|reflexivity]. cbn [all_chars]. now rewrite Hc.
Qed.

(** [section.strip()] is true exactly of a text with a character that is
    not white space. *)
Lemma truthy_strip (s : string) : truthy (strip s) = negb (all_chars isspace s).
Proof. unfold strip. now rewrite rstrip_by_truthy, lstrip_by_all. Qed.

Lemma all_chars_join (p : ascii -> bool) (sep : ascii) (ls : list string) :
  p sep = true ->
  all_chars p (join (String sep "") ls) = forallb (all_chars p) ls.
Proof.
  intros Hsep. induction ls as [|x ls IH]; [reflexivity|].
  destruct ls as [|y ls].
  - cbn. now rewrite andb_true_r.
  - rewrite join_cons, !all_chars_app, IH. cbn [all_chars forallb].
    now rewrite Hsep.
Qed.

Lemma blank_lines (s : string) :
  all_chars isspace s = forallb (all_chars isspace) (split newline s).
Proof.
  rewrite <- (join_split newline s) at 1. now apply all_chars_join.
Qed.

(** ** The loops in closed form *)

Lemma locals_eq (o o' : list string) (t t' : Z) (l l' : list string) (a a' b b' : Z) :
  o = o' -> t = t' -> l = l' -> a = a' -> b = b' ->
  mkLocals o t l a b = mkLocals o' t' l' a' b'.
Proof. now intros -> -> -> -> ->. Qed.

Ltac locals_eq :=
  apply locals_eq; cbn;
  rewrite ?app_nil_r, ?Z.add_0_r, <- ?app_assoc; try reflexivity; try lia.

Lemma line_body_closed (st : locals) (line : string) :
  line_body st line =
  if line_fails line then raise ValueError else ret (line_step st line).
Proof.
  unfold line_body, line_fails, line_step, line_out, is_hit_entry, is_summary.
  destruct st as [o t l a b]. cbn [output_sections total_filtered filtered_lines fnf_adjust fnh_adjust count_removed count_hit append_line].
  destruct (is_destructor_entry line).
  - destruct (startswith line "FNA:"); cbn [andb].
    + destruct (2 <=? List.length (split "," line))%nat; cbn [andb].
      * destruct (int_field "," line) as [hits|]; [|reflexivity].
        destruct (0 <? hits); unfold ret; f_equal; locals_eq.
      * unfold ret; f_equal; locals_eq.
    + unfold ret; f_equal; locals_eq.
  - destruct (startswith line "FNF:"); cbn [orb andb].
    + destruct (int_field ":" line); [|reflexivity]. unfold ret; f_equal; locals_eq.
    + destruct (startswith line "FNH:").
      * destruct (int_field ":" line); [|reflexivity]. unfold ret; f_equal; locals_eq.
      * unfold ret; f_equal; locals_eq.
Qed.

Lemma removed_count_cons (line : string) (rest : list string) :
  removed_count (line :: rest) = Z.b2z (is_destructor_entry line) + removed_count rest.
Proof.
  unfold removed_count. cbn [filter].
  destruct (is_destructor_entry line); cbn [List.length Z.b2z]; lia.
Qed.

Lemma removed_hit_count_cons (line : string) (rest : list string) :
  removed_hit_count (line :: rest) = Z.b2z (is_hit_entry line) + removed_hit_count rest.
Proof.
  unfold removed_hit_count. cbn [filter].
  destruct (is_hit_entry line); cbn [List.length Z.b2z]; lia.
Qed.

(** The inner loop: it raises when some line does, and otherwise leaves the
    counters advanced by the numbers of removed lines. *)
Lemma lines_loop_closed (lines : list string) (st : locals) :
  for_each line_body lines st =
  if existsb line_fails lines then raise ValueError else ret (lines_step st lines).
Proof.
  revert st. induction lines as [|line rest IH]; intros st.
  - cbn. unfold ret. f_equal. destruct st. unfold lines_step. locals_eq.
  - cbn [for_each existsb]. rewrite line_body_closed.
    destruct (line_fails line); [reflexivity|]. cbn [orb bind ret].
    rewrite IH. destruct (existsb line_fails rest); [reflexivity|].
    unfold ret. f_equal. unfold lines_step, line_step. destruct st.
    cbn [output_sections total_filtered filtered_lines fnf_adjust fnh_adjust lines_out].
    rewrite removed_count_cons, removed_hit_count_cons. locals_eq.
Qed.

(** One round of the outer loop, from any state: it raises exactly on a
    failing section, and otherwise appends the section's own text and adds
    the section's own count. *)
Lemma section_body_closed (st : locals) (section : string) :
  if section_fails section
  then section_body st section = raise ValueError
  else exists st',
      section_body st section = ret st'
      /\ concat_all (output_sections st')
         = concat_all (output_sections st) ++ section_text section
      /\ total_filtered st' = total_filtered st + section_removed section.
Proof.
  unfold section_fails, section_body, section_text, section_removed, is_content.
  destruct (startswith section "SF:"); cbn [negb andb].
  - eexists; split; [reflexivity|]. cbn.
    rewrite concat_all_app. change (concat_all [section]) with section.
    split; [reflexivity | lia].
  - destruct (truthy (strip section)).
    + rewrite lines_loop_closed.
      destruct (existsb line_fails (split newline section)); [reflexivity|].
      cbn [bind ret]. eexists; split; [reflexivity|]. cbn.
      rewrite concat_all_app. split; [reflexivity | lia].
    + eexists; split; [reflexivity|]. rewrite append_empty_r. split; [reflexivity | lia].
Qed.

Lemma sections_loop_closed (sections : list string) (st : locals) :
  if existsb section_fails sections
  then for_each section_body sections st = raise ValueError
  else exists st',
      for_each section_body sections st = ret st'
      /\ concat_all (output_sections st')
         = concat_all (output_sections st) ++ concat_all (map section_text sections)
      /\ total_filtered st'
         = total_filtered st + sum_Z (map section_removed sections).
Proof.
  revert st. induction sections as [|section rest IH]; intros st.
  - cbn [existsb]. exists st. split; [reflexivity|].
    cbn [map]. change (concat_all []) with "". rewrite append_empty_r.
    split; [reflexivity | cbn; lia].
  - cbn [existsb for_each]. pose proof (section_body_closed st section) as H.
    destruct (section_fails section); cbn [orb].
    + now rewrite H.
    + destruct H as (st1 & -> & Ho & Ht). cbn [bind ret].
      specialize (IH st1). destruct (existsb section_fails rest); [exact IH|].
      destruct IH as (st' & -> & Ho' & Ht'). exists st'. split; [reflexivity|].
      cbn [map]. rewrite concat_all_cons, Ho', Ho, append_assoc3.
      split; [reflexivity|]. rewrite Ht', Ht. unfold sum_Z. cbn [fold_right]. lia.
Qed.

(** The transformation in closed form. *)
Lemma filter_content_closed (content : string) :
  filter_content content =
  if existsb section_fails (re_split content) then raise ValueError
  else ret (concat_all (map section_text (re_split content)),
            sum_Z (map section_removed (re_split content))).
Proof.
  unfold filter_content.
  pose proof (sections_loop_closed (re_split content) initial_locals) as H.
  destruct (existsb section_fails (re_split content)).
  - now rewrite H.
  - destruct H as (st' & -> & Ho & Ht). cbn [bind ret]. now rewrite Ho, Ht.
Qed.

(** ** Prefixes of record lines *)

Lemma FNF_not_function_record (line : string) :
  startswith line "FNF:" = true -> is_function_record line = false.
Proof.
  intros H. destruct (prefix_inv _ _ H) as [r ->].
  unfold is_function_record, startswith. cbn [append String.prefix].
  destruct (ascii_dec "F" "F"); [|reflexivity].
  destruct (ascii_dec "N" "N"); [|reflexivity].
  destruct (ascii_dec ":" "F"); [discriminate|].
  destruct (ascii_dec "D" "F"); [discriminate|].
  destruct (ascii_dec "A" "F"); [discriminate | reflexivity].
Qed.

Lemma FNH_not_function_record (line : string) :
  startswith line "FNH:" = true ->
  is_function_record line = false /\ startswith line "FNF:" = false.
Proof.
  intros H. destruct (prefix_inv _ _ H) as [r ->].
  unfold is_function_record, startswith. cbn [append String.prefix].
  destruct (ascii_dec "F" "F"); [|split; reflexivity].
  destruct (ascii_dec "N" "N"); [|split; reflexivity].
  destruct (ascii_dec ":" "H"); [discriminate|].
  destruct (ascii_dec "D" "H"); [discriminate|].
  destruct (ascii_dec "A" "H"); [discriminate|].
  destruct (ascii_dec "F" "H"); [discriminate|]. split; reflexivity.
Qed.

Lemma summary_not_destructor (line : string) :
  is_summary line = true -> is_destructor_entry line = false.
Proof.
  unfold is_summary, is_destructor_entry. intros H.
  apply orb_true_iff in H as [H|H].
  - now rewrite (FNF_not_function_record _ H).
  - now rewrite (proj1 (FNH_not_function_record _ H)).
Qed.

Lemma line_body_FNF (st : locals) (line : string) (n : Z) :
  startswith line "FNF:" = true -> int_field ":" line = Some n ->
  line_body st line = ret (append_line st ("FNF:" ++ str (n - fnf_adjust st))).
Proof.
  intros H E. unfold line_body, is_destructor_entry.
  now rewrite (FNF_not_function_record _ H), H, E.
Qed.

Lemma line_body_FNH (st : locals) (line : string) (n : Z) :
  startswith line "FNH:" = true -> int_field ":" line = Some n ->
  line_body st line = ret (append_line st ("FNH:" ++ str (n - fnh_adjust st))).
Proof.
  intros H E. unfold line_body, is_destructor_entry.
  destruct (FNH_not_function_record _ H) as [H1 H2].
  now rewrite H1, H2, H, E.
Qed.

Lemma str_negative (k : Z) : 0 < k -> str (- k) = "-" ++ str k.
Proof. destruct k as [|p|p]; intros H; try lia. reflexivity. Qed.

(** ** Failures *)

Lemma content_of_line (section line : string) :
  startswith section "SF:" = false ->
  In line (split newline section) ->
  all_chars isspace line = false ->
  is_content section = true.
Proof.
  intros Hsf Hin Hline. unfold is_content. rewrite Hsf, truthy_strip, blank_lines.
  cbn [negb andb]. apply negb_true_iff.
  destruct (forallb (all_chars isspace) (split newline section)) eqn:E; [|reflexivity].
  rewrite forallb_forall in E. rewrite (E _ Hin) in Hline. discriminate.
Qed.

Lemma record_line_not_blank (line : string) :
  is_function_record line = true \/ is_summary line = true ->
  all_chars isspace line = false.
Proof.
  unfold is_function_record, is_summary, startswith.
  intros [H|H]; repeat (apply orb_true_iff in H as [H|H]);
    destruct (prefix_inv _ _ H) as [r ->]; reflexivity.
Qed.

Lemma filter_content_fails (content section line : string) :
  In section (re_split content) ->
  startswith section "SF:" = false ->
  In line (split newline section) ->
  all_chars isspace line = false ->
  line_fails line = true ->
  filter_content content = raise ValueError.
Proof.
  intros Hsec Hsf Hline Hblank Hfail. rewrite filter_content_closed.
  assert (E : existsb section_fails (re_split content) = true).
  { apply existsb_exists. exists section. split; [assumption|].
    unfold section_fails. rewrite (content_of_line _ _ Hsf Hline Hblank).
    apply existsb_exists. now exists line. }
  now rewrite E.
Qed.

(** An exception of the transformation leaves [filter_lcov] before the
    output file is opened. *)
Lemma filter_lcov_raises (input_file output_file text : string) (w : world) (e : exn) :
  files w input_file = Some text ->
  filter_content (universal_newlines text) = raise e ->
  filter_lcov input_file output_file w = (raise e, w).
Proof. intros Hin He. unfold filter_lcov. now rewrite Hin, He. Qed.

(** ** Sections run alone *)

Lemma run_section_closed (section : string) :
  run_section section =
  if section_fails section then raise ValueError
  else ret (section_text section, section_removed section).
Proof.
  unfold run_section. pose proof (section_body_closed initial_locals section) as H.
  destruct (section_fails section).
  - now rewrite H.
  - destruct H as (st' & -> & Ho & Ht). cbn [bind ret]. rewrite Ho, Ht.
    reflexivity.
Qed.

(** A run that returns is made of the runs of its sections, each alone. *)
Lemma filter_content_sections (content out : string) (total : Z) :
  filter_content content = ret (out, total) ->
  out = concat_all (map section_text (re_split content))
  /\ total = sum_Z (map section_removed (re_split content))
  /\ Forall (fun section =>
               section_fails section = false
               /\ run_section section
                  = ret (section_text section, section_removed section))
            (re_split content).
Proof.
  rewrite filter_content_closed.
  destruct (existsb section_fails (re_split content)) eqn:E; [discriminate|].
  intros [= <- <-]. split; [reflexivity|]. split; [reflexivity|].
  apply Forall_forall. intros section Hin. rewrite run_section_closed.
  destruct (section_fails section) eqn:F; [|now split].
  assert (existsb section_fails (re_split content) = true)
    by (apply existsb_exists; now exists section).
  congruence.
Qed.

Lemma Forall2_map_both {A B : Type} (R : A -> B -> Prop) (f : A -> B) (l : list A) :
  Forall (fun x => R x (f x)) l -> Forall2 R l (map f l).
Proof. induction 1; cbn; constructor; assumption. Qed.

(** ** Lines that pass through *)

Lemma passes_through_line_out (fnf fnh : Z) (line : string) :
  line_fails line = false ->
  filter passes_through (line_out fnf fnh line) = filter passes_through [line].
Proof.
  unfold line_fails, line_out, passes_through, is_destructor_entry, is_summary.
  destruct (is_function_record line) eqn:R; cbn [andb orb negb filter].
  - destruct (search_destructor line); [intros _; now rewrite R|].
    destruct (startswith line "FNF:") eqn:F.
    { apply FNF_not_function_record in F. congruence. }
    destruct (startswith line "FNH:") eqn:G.
    { apply FNH_not_function_record in G as [G _]. congruence. }
    intros _. cbn [filter]. now rewrite R.
  - destruct (startswith line "FNF:") eqn:F; cbn [orb negb].
    + destruct (int_field ":" line); [|discriminate]. intros _. cbn [filter].
      unfold startswith. rewrite prefix_app. cbn [orb]. now rewrite !orb_true_r.
    + destruct (startswith line "FNH:") eqn:G; cbn [negb].
      * destruct (int_field ":" line); [|discriminate]. intros _. cbn [filter].
        unfold startswith. rewrite (prefix_app "FNH:"). now rewrite !orb_true_r.
      * intros _. cbn [filter]. now rewrite R, F, G.
Qed.

Lemma passes_through_lines_out (lines : list string) (fnf fnh : Z) :
  existsb line_fails lines = false ->
  filter passes_through (lines_out fnf fnh lines) = filter passes_through lines.
Proof.
  revert fnf fnh. induction lines as [|line rest IH]; intros fnf fnh H; [reflexivity|].
  cbn [existsb] in H. apply orb_false_iff in H as [Hl Hr].
  cbn [lines_out]. rewrite filter_app, (passes_through_line_out _ _ _ Hl), (IH _ _ Hr).
  cbn [filter]. now destruct (passes_through line).
Qed.

(** ** The counters of a well-ordered section *)

Lemma expected_line_out (removed hits : Z) (line : string) :
  line_fails line = false ->
  expected_line removed hits line = Some (line_out removed hits line).
Proof.
  unfold line_fails, expected_line, line_out, is_summary.
  destruct (is_destructor_entry line); [reflexivity|].
  destruct (startswith line "FNF:"); cbn [orb].
  - now destruct (int_field ":" line).
  - destruct (startswith line "FNH:"); [|reflexivity].
    now destruct (int_field ":" line).
Qed.

Lemma line_out_not_summary (fnf fnh fnf' fnh' : Z) (line : string) :
  is_summary line = false -> line_out fnf fnh line = line_out fnf' fnh' line.
Proof.
  unfold is_summary, line_out. intros H. apply orb_false_iff in H as [-> ->].
  reflexivity.
Qed.

Lemma hit_entry_destructor (line : string) :
  is_destructor_entry line = false -> is_hit_entry line = false.
Proof. unfold is_hit_entry. now intros ->. Qed.

Lemma no_records_counts (lines : list string) :
  forallb (fun l => negb (is_function_record l)) lines = true ->
  removed_count lines = 0 /\ removed_hit_count lines = 0
  /\ records_precede_summaries lines = true.
Proof.
  induction lines as [|line rest IH]; [easy|]. cbn [forallb]. intros H.
  apply andb_true_iff in H as [Hl Hr]. apply negb_true_iff in Hl.
  destruct (IH Hr) as (E1 & E2 & E3).
  assert (D : is_destructor_entry line = false)
    by (unfold is_destructor_entry; now rewrite Hl).
  rewrite removed_count_cons, removed_hit_count_cons, D, (hit_entry_destructor _ D), E1, E2.
  repeat split. cbn [records_precede_summaries]. now destruct (is_summary line).
Qed.

(** In a section whose records precede its summary lines, the single pass
    writes what the two passes of the specification write. *)
Lemma lines_out_expected (lines : list string) (fnf fnh : Z) :
  records_precede_summaries lines = true ->
  existsb line_fails lines = false ->
  expected_lines (fnf + removed_count lines) (fnh + removed_hit_count lines) lines
  = Some (lines_out fnf fnh lines).
Proof.
  revert fnf fnh. induction lines as [|line rest IH]; intros fnf fnh Hord Hok;
    [reflexivity|].
  cbn [existsb] in Hok. apply orb_false_iff in Hok as [Hl Hr].
  cbn [records_precede_summaries] in Hord. cbn [expected_lines lines_out].
  rewrite (expected_line_out _ _ _ Hl).
  rewrite removed_count_cons, removed_hit_count_cons.
  destruct (is_summary line) eqn:S.
  - destruct (no_records_counts _ Hord) as (E1 & E2 & E3).
    pose proof (summary_not_destructor _ S) as D.
    rewrite D, (hit_entry_destructor _ D), E1, E2. cbn [Z.b2z].
    rewrite !Z.add_0_r.
    specialize (IH fnf fnh E3 Hr). rewrite E1, E2, !Z.add_0_r in IH.
    now rewrite IH.
  - rewrite (line_out_not_summary _ _ fnf fnh _ S).
    specialize (IH (fnf + Z.b2z (is_destructor_entry line))
                   (fnh + Z.b2z (is_hit_entry line)) Hord Hr).
    rewrite <- !Z.add_assoc in IH. now rewrite IH.
Qed.

(** ** Lines of a section and lines of the document *)

Lemma split_app_last (sep : ascii) (a x : string) :
  all_chars (is_not sep) x = true ->
  exists init last,
    split sep a = (init ++ [last])%list
    /\ split sep (a ++ x) = (init ++ [(last ++ x)%string])%list.
Proof.
  intros Hx. induction a as [|c a IH].
  - exists [], "". split; [reflexivity|]. cbn [append app]. now apply split_no_sep.
  - destruct IH as (init & last & E & E').
    destruct (c =? sep)%char eqn:Hc.
    + exists ("" :: init), last. cbn [split append]. rewrite Hc, E, E'. now split.
    + cbn [split append]. rewrite Hc, E, E'. destruct init as [|i init].
      * exists [], (String c last). now split.
      * exists (String c i :: init), last. now split.
Qed.

Lemma destructor_at_app (a b : string) :
  destructor_at a = true -> destructor_at (a ++ b) = true.
Proof.
  unfold destructor_at, startswith. intros H.
  repeat (apply orb_true_iff in H as [H|H]);
    rewrite (prefix_extend _ _ b H); now rewrite ?orb_true_r.
Qed.

Lemma search_destructor_app (a b : string) :
  search_destructor a = true -> search_destructor (a ++ b) = true.
Proof.
  induction a as [|c a IH]; [discriminate|].
  cbn [search_destructor]. intros H. apply orb_true_iff in H as [H|H].
  - change (String c (a ++ b)) with (String c a ++ b).
    cbn [append search_destructor].
    change (String c (a ++ b)) with (String c a ++ b).
    now rewrite (destructor_at_app _ b H).
  - cbn [append search_destructor]. now rewrite (IH H), orb_true_r.
Qed.

(** A removed line stays one when text is appended to it. *)
Lemma destructor_entry_app (a b : string) :
  is_destructor_entry a = true -> is_destructor_entry (a ++ b) = true.
Proof.
  unfold is_destructor_entry, is_function_record, startswith. intros H.
  apply andb_true_iff in H as [Hp Hs].
  rewrite (search_destructor_app _ b Hs), andb_true_r.
  repeat (apply orb_true_iff in Hp as [Hp|Hp]);
    rewrite (prefix_extend _ _ b Hp); now rewrite ?orb_true_r.
Qed.

Lemma marker_lines_kept (m line : string) :
  is_marker_text m -> In line (split newline m) -> is_destructor_entry line = false.
Proof.
  intros (body & -> & Hb) Hin.
  replace ("SF:" ++ body ++ NL) with (("SF:" ++ body) ++ String newline "") in Hin
    by (now rewrite append_assoc3).
  rewrite split_app_sep, split_no_sep in Hin by exact Hb.
  destruct Hin as [<-|[<-|[]]]; reflexivity.
Qed.

(** A document without removed lines has none in any of its sections: a
    line of a section is a line of the document, or the start of one. *)
Lemma section_lines_clean (content : string) :
  (forall line, In line (split newline content) -> is_destructor_entry line = false) ->
  forall section line,
    In section (re_split content) -> In line (split newline section) ->
    is_destructor_entry line = false.
Proof.
  apply re_split_ind with
    (P := fun s segs =>
            (forall line, In line (split newline s) -> is_destructor_entry line = false) ->
            forall section line,
              In section segs -> In line (split newline section) ->
              is_destructor_entry line = false).
  - intros s _ H section line [<-|[]] Hin. now apply H.
  - intros pre m rest E IH H section line Hsec Hin.
    apply search_marker_some in E as (_ & _ & Hm).
    destruct Hm as (body & -> & Hb).
    assert (Hs : split newline (pre ++ ("SF:" ++ body ++ NL) ++ rest)
                 = (split newline (pre ++ "SF:" ++ body) ++ split newline rest)%list).
    { rewrite <- split_app_sep. f_equal. now rewrite !append_assoc3. }
    rewrite Hs in H.
    destruct Hsec as [<-|[<-|Hsec]].
    + destruct (split_app_last newline pre ("SF:" ++ body) Hb) as (init & last & F & F').
      rewrite F in Hin. rewrite F' in H. apply in_app_or in Hin as [Hin|[->|[]]].
      * apply H. apply in_or_app. left. apply in_or_app. now left.
      * destruct (is_destructor_entry line) eqn:D; [|reflexivity].
        rewrite <- (destructor_entry_app _ ("SF:" ++ body) D).
        apply H. apply in_or_app. left. apply in_or_app. right. now left.
    + apply (marker_lines_kept ("SF:" ++ body ++ NL)); [now exists body | assumption].
    + apply (IH (fun l Hl => H l (in_or_app _ _ _ (or_intror Hl))) section line Hsec Hin).
Qed.

(** ** Sections without removed lines *)

Lemma numeral_char (c : ascii) :
  is_numeral c = true ->
  is_not newline c = true /\ is_not ":" c = true /\ is_not "S" c = true.
Proof.
  destruct c as [[] [] [] [] [] [] [] []]; intros H; try discriminate;
    repeat split.
Qed.

Lemma str_chars (n : Z) :
  all_chars (is_not newline) (str n) = true
  /\ all_chars (is_not ":") (str n) = true
  /\ all_chars (is_not "S") (str n) = true.
Proof.
  repeat split; apply all_chars_weaken with (p := is_numeral);
    try apply str_numeral; intros c Hc; now apply numeral_char in Hc.
Qed.

Lemma contains_no_S (s : string) :
  all_chars (is_not "S") s = true -> contains "SF:" s = false.
Proof.
  induction s as [|c s IH]; [reflexivity|]. cbn [all_chars contains].
  intros H. apply andb_true_iff in H as [Hc Hs]. rewrite (IH Hs), orb_false_r.
  cbn [String.prefix]. destruct (ascii_dec "S" c) as [<-|]; [|reflexivity].
  discriminate.
Qed.

Lemma int_field_rendered (p : string) (n : Z) :
  p = "FNF" \/ p = "FNH" ->
  int_field ":" (p ++ ":" ++ str n) = Some n.
Proof.
  intros Hp. unfold int_field.
  change (p ++ ":" ++ str n) with (p ++ String ":" (str n)).
  rewrite split_app_sep, (split_no_sep ":" (str n)) by apply str_chars.
  destruct Hp as [-> | ->]; cbn [split app nth]; apply int_str.
Qed.

Lemma canonical_cases (line : string) :
  canonical line = line
  \/ exists n, canonical line = "FNF:" ++ str n \/ canonical line = "FNH:" ++ str n.
Proof.
  unfold canonical. destruct (startswith line "FNF:").
  - destruct (int_field ":" line) as [n|]; [right; exists n|]; auto.
  - destruct (startswith line "FNH:"); [|now left].
    destruct (int_field ":" line) as [n|]; [right; exists n|]; auto.
Qed.

(** What holds of a summary line written by the loop. *)
Lemma rendered_summary (c : string) (n : Z) :
  c = "FNF:" ++ str n \/ c = "FNH:" ++ str n ->
  canonical c = c
  /\ is_destructor_entry c = false
  /\ line_fails c = false
  /\ all_chars (is_not newline) c = true
  /\ free_of_SF c = true
  /\ all_chars isspace c = false
  /\ startswith c "SF:" = false.
Proof.
  destruct (str_chars n) as (N1 & N2 & N3).
  assert (I1 : int_field ":" ("FNF:" ++ str n) = Some n)
    by (apply (int_field_rendered "FNF"); now left).
  assert (I2 : int_field ":" ("FNH:" ++ str n) = Some n)
    by (apply (int_field_rendered "FNH"); now right).
  assert (P1 : startswith ("FNF:" ++ str n) "FNF:" = true) by apply prefix_app.
  assert (P2 : startswith ("FNH:" ++ str n) "FNH:" = true) by apply prefix_app.
  assert (S1 : is_summary ("FNF:" ++ str n) = true)
    by (unfold is_summary; now rewrite P1).
  assert (S2 : is_summary ("FNH:" ++ str n) = true)
    by (unfold is_summary; now rewrite P2, orb_true_r).
  assert (B : forall p, all_chars (is_not "S") (p ++ str n) = all_chars (is_not "S") p)
    by (intros p; now rewrite all_chars_app, N3, andb_true_r).
  assert (L : forall p, all_chars (is_not newline) (p ++ str n)
                        = all_chars (is_not newline) p)
    by (intros p; now rewrite all_chars_app, N1, andb_true_r).
  intros [-> | ->].
  - split; [unfold canonical; now rewrite P1, I1|].
    split; [now apply summary_not_destructor|].
    split; [unfold line_fails; now rewrite (summary_not_destructor _ S1), S1, I1|].
    split; [now rewrite L|].
    split; [unfold free_of_SF; rewrite contains_no_S; [reflexivity | now rewrite B]|].
    split; reflexivity.
  - split; [unfold canonical;
            now rewrite (proj2 (FNH_not_function_record _ P2)), P2, I2|].
    split; [now apply summary_not_destructor|].
    split; [unfold line_fails; now rewrite (summary_not_destructor _ S2), S2, I2|].
    split; [now rewrite L|].
    split; [unfold free_of_SF; rewrite contains_no_S; [reflexivity | now rewrite B]|].
    split; reflexivity.
Qed.

Lemma line_out_clean (line : string) :
  is_destructor_entry line = false -> line_fails line = false ->
  line_out 0 0 line = [canonical line].
Proof.
  unfold line_out, line_fails, canonical, is_summary. intros ->.
  destruct (startswith line "FNF:"); cbn [orb].
  - destruct (int_field ":" line); [|discriminate]. now rewrite Z.sub_0_r.
  - destruct (startswith line "FNH:"); [|reflexivity].
    destruct (int_field ":" line); [|discriminate]. now rewrite Z.sub_0_r.
Qed.

Lemma clean_cons (line : string) (rest : list string) :
  clean (line :: rest) -> is_destructor_entry line = false /\ clean rest.
Proof.
  intros H. split; [apply H; now left|]. intros l Hl. apply H. now right.
Qed.

Lemma lines_out_clean (lines : list string) :
  clean lines -> existsb line_fails lines = false ->
  lines_out 0 0 lines = map canonical lines
  /\ removed_count lines = 0.
Proof.
  induction lines as [|line rest IH]; [easy|]. intros Hc Hok.
  apply clean_cons in Hc as [Hl Hc]. cbn [existsb] in Hok.
  apply orb_false_iff in Hok as [Fl Fr]. destruct (IH Hc Fr) as [E1 E2].
  cbn [lines_out map]. rewrite removed_count_cons, Hl, (hit_entry_destructor _ Hl).
  cbn [Z.b2z Z.add]. rewrite E1, E2, (line_out_clean _ Hl Fl). now split.
Qed.

(** The lines written for a section without removed lines, read again. *)
Lemma canonical_lines (lines : list string) :
  clean lines -> existsb line_fails lines = false ->
  Forall (fun l => all_chars (is_not newline) l = true) lines ->
  clean (map canonical lines)
  /\ existsb line_fails (map canonical lines) = false
  /\ Forall (fun l => all_chars (is_not newline) l = true) (map canonical lines)
  /\ map canonical (map canonical lines) = map canonical lines.
Proof.
  induction lines as [|line rest IH]; intros Hc Hok Hn.
  - repeat split; [intros l [] | constructor].
  - apply clean_cons in Hc as [Hl Hc]. cbn [existsb] in Hok.
    apply orb_false_iff in Hok as [Fl Fr]. inversion Hn as [|? ? Nl Nr]; subst.
    destruct (IH Hc Fr Nr) as (C & F & N & M). cbn [map existsb].
    assert (P : canonical (canonical line) = canonical line
                /\ is_destructor_entry (canonical line) = false
                /\ line_fails (canonical line) = false
                /\ all_chars (is_not newline) (canonical line) = true).
    { destruct (canonical_cases line) as [E|[n E]].
      - rewrite !E. auto.
      - destruct (rendered_summary _ n E) as (P1 & P2 & P3 & P4 & _). auto. }
    destruct P as (P1 & P2 & P3 & P4). rewrite P1, P3, M, F.
    repeat split; [|now constructor].
    intros l [<-|Hin]; [assumption | now apply C].
Qed.

Lemma canonical_keeps (line : string) :
  (free_of_SF line = true -> free_of_SF (canonical line) = true)
  /\ (all_chars isspace (canonical line) = true -> all_chars isspace line = true)
  /\ (startswith line "SF:" = false -> startswith (canonical line) "SF:" = false).
Proof.
  destruct (canonical_cases line) as [E|[n E]].
  - rewrite E. auto.
  - destruct (rendered_summary _ n E) as (_ & _ & _ & _ & P5 & P6 & P7).
    rewrite P5, P6, P7. repeat split; auto; discriminate.
Qed.

Lemma forallb_map_impl {A B : Type} (p : A -> bool) (q : B -> bool) (f : A -> B)
      (l : list A) :
  (forall x, p x = true -> q (f x) = true) ->
  forallb p l = true -> forallb q (map f l) = true.
Proof.
  intros H. induction l as [|x l IH]; [reflexivity|]. cbn [forallb map].
  intros E. apply andb_true_iff in E as [Ex El]. now rewrite (H _ Ex), (IH El).
Qed.

Lemma all_but_last_map {A B : Type} (p : A -> bool) (q : B -> bool) (f : A -> B)
      (l : list A) :
  (forall x, p x = true -> q (f x) = true) ->
  all_but_last p l = true -> all_but_last q (map f l) = true.
Proof.
  intros H. induction l as [|x l IH]; [reflexivity|].
  destruct l as [|y l]; [reflexivity|].
  cbn [all_but_last map] in *. intros E. apply andb_true_iff in E as [Ex El].
  now rewrite (H _ Ex), (IH El).
Qed.

(** The text written for a section without removed lines is a fixed point
    of the loop body, and keeps the section's place in the partition. *)
Lemma section_text_fixed (section : string) :
  clean (split newline section) ->
  section_fails section = false ->
  section_text (section_text section) = section_text section
  /\ section_fails (section_text section) = false
  /\ section_removed section = 0
  /\ section_removed (section_text section) = 0
  /\ (contains "SF:" section = false -> contains "SF:" (section_text section) = false)
  /\ (search_marker section = None -> search_marker (section_text section) = None).
Proof.
  intros Hclean Hok.
  assert (R : section_removed section
              = if is_content section then removed_count (split newline section) else 0)
    by reflexivity.
  assert (T : section_text section
              = if startswith section "SF:" then section
                else if truthy (strip section)
                     then join NL (lines_out 0 0 (split newline section))
                     else "") by reflexivity.
  unfold section_fails in Hok. unfold is_content in Hok, R.
  destruct (startswith section "SF:") eqn:Hsf; cbn [negb andb] in *.
  { rewrite T, R. split; [exact T|]. unfold section_fails, is_content.
    rewrite Hsf. repeat split; auto. }
  destruct (truthy (strip section)) eqn:Hne; cbn [andb] in *.
  2:{ rewrite T, R. repeat split; auto. }
  set (lines := split newline section) in *.
  destruct (lines_out_clean lines Hclean Hok) as [Eout Ecount].
  rewrite Eout in T. rewrite Ecount in R. rewrite T, R. clear T R.
  pose proof (split_lines_no_sep newline section) as Hn. fold lines in Hn.
  destruct (canonical_lines lines Hclean Hok Hn) as (C & F & N & M).
  set (cl := map canonical lines) in *.
  assert (Hnil : cl <> []).
  { unfold cl. destruct lines eqn:E; [now elim (split_not_nil newline section)|].
    discriminate. }
  assert (Hsplit : split newline (join NL cl) = cl) by now apply split_join.
  assert (Hsf' : startswith (join NL cl) "SF:" = false).
  { unfold startswith. destruct cl as [|c1 cl'] eqn:Ecl; [now elim Hnil|].
    rewrite (prefix_first_line "SF:" _ _ _ eq_refl Hsplit).
    destruct lines as [|l1 lines'] eqn:El; [discriminate|].
    unfold cl in Ecl. cbn [map] in Ecl. injection Ecl as <- _.
    apply canonical_keeps. unfold startswith.
    now rewrite <- (prefix_first_line "SF:" section l1 lines' eq_refl El). }
  assert (Hne' : truthy (strip (join NL cl)) = true).
  { rewrite truthy_strip, blank_lines, Hsplit. rewrite truthy_strip, blank_lines in Hne.
    fold lines in Hne. apply negb_true_iff. apply negb_true_iff in Hne.
    destruct (forallb (all_chars isspace) cl) eqn:E; [|reflexivity].
    rewrite <- Hne. symmetry. unfold cl in E.
    clear - E. induction lines as [|l ls IH]; [reflexivity|].
    cbn [map forallb] in *. apply andb_true_iff in E as [El Els].
    apply canonical_keeps in El. now rewrite El, IH. }
  destruct (lines_out_clean cl C F) as [Eout' Ecount'].
  assert (Htext : section_text (join NL cl) = join NL cl).
  { unfold section_text. now rewrite Hsf', Hne', Hsplit, Eout', M. }
  split; [exact Htext|].
  split. { unfold section_fails, is_content. now rewrite Hsf', Hne', Hsplit, F. }
  split; [reflexivity|].
  split. { unfold section_removed, is_content. now rewrite Hsf', Hne', Hsplit. }
  split.
  - intros H. apply negb_true_iff. fold (free_of_SF (join NL cl)).
    rewrite contains_SF_lines, Hsplit.
    apply (forallb_map_impl free_of_SF free_of_SF canonical lines).
    + intros x. apply canonical_keeps.
    + unfold lines. rewrite <- contains_SF_lines. unfold free_of_SF. now rewrite H.
  - intros H. apply search_marker_lines. rewrite Hsplit.
    apply (all_but_last_map free_of_SF free_of_SF canonical lines).
    + intros x. apply canonical_keeps.
    + now apply search_marker_lines.
Qed.

Lemma marker_text_kept (m : string) : is_marker_text m -> section_text m = m.
Proof.
  intros (body & -> & _). unfold section_text, startswith.
  now rewrite prefix_app.
Qed.

(** Rewriting the sections without removed lines keeps the partition. *)
Lemma partitioned_map (segs : list string) :
  partitioned segs ->
  Forall (fun s => clean (split newline s) /\ section_fails s = false) segs ->
  partitioned (map section_text segs).
Proof.
  remember (List.length segs) as n eqn:Hn. revert segs Hn.
  induction n as [n IH] using lt_wf_ind. intros segs -> Hp Hall.
  destruct segs as [|pre [|m rest]]; cbn [partitioned map] in *.
  - contradiction.
  - inversion Hall as [|? ? [Hc Hf] _]; subst.
    apply unmatched_iff. apply unmatched_iff in Hp.
    now apply (section_text_fixed pre Hc Hf).
  - destruct Hp as (Hpre & Hm & Hrest).
    inversion Hall as [|? ? [Hc Hf] Hall']; subst.
    inversion Hall' as [|? ? _ Hall'']; subst.
    rewrite (marker_text_kept _ Hm). split; [|split; [assumption|]].
    + now apply (section_text_fixed pre Hc Hf).
    + apply (IH (List.length rest)); [cbn; lia | reflexivity | assumption ..].
Qed.

Lemma sum_Z_zero (l : list Z) : Forall (fun z => z = 0) l -> sum_Z l = 0.
Proof.
  induction 1 as [|z l -> _ IH]; [reflexivity|].
  unfold sum_Z in *. cbn [fold_right]. now rewrite IH.
Qed.

(** ** Lines of the document that are lines of a section *)

Lemma contains_SF_app (a b : string) : contains "SF:" (a ++ "SF:" ++ b) = true.
Proof.
  induction a as [|c a IH].
  - change ("" ++ "SF:" ++ b) with (String "S" ("F:" ++ b)). cbn [contains].
    change (String "S" ("F:" ++ b)) with ("SF:" ++ b). now rewrite prefix_app.
  - cbn [append contains]. cbn [append] in IH. now rewrite IH, orb_true_r.
Qed.

Lemma contains_SF_prefix (s : string) :
  contains "SF:" s = false -> String.prefix "SF:" s = false.
Proof.
  destruct s as [|c s]; [reflexivity|]. cbn [contains]. intros H.
  now apply orb_false_iff in H as [H _].
Qed.

Lemma unmatched_marker_start (s : string) :
  search_marker s = None -> String.prefix "SF:" s = true ->
  split newline s = [s].
Proof.
  intros H Hp. apply unmatched_iff in H. destruct (prefix_inv _ _ Hp) as [r ->].
  apply split_no_sep. specialize (H "" r eq_refl).
  rewrite all_chars_app, H. reflexivity.
Qed.

(** A line of the document without [SF:] in it is a line of a section the
    inner loop is offered. *)
Lemma document_line_content_line (content line : string) :
  In line (split newline content) -> contains "SF:" line = false ->
  content_line content line.
Proof.
  unfold content_line.
  apply re_split_ind with
    (P := fun s segs =>
            In line (split newline s) -> contains "SF:" line = false ->
            exists section,
              In section segs /\ startswith section "SF:" = false
              /\ In line (split newline section)).
  - intros s Hs Hin Hc. exists s. split; [now left|]. split; [|assumption].
    unfold startswith. destruct (String.prefix "SF:" s) eqn:Hp; [|reflexivity].
    rewrite (unmatched_marker_start _ Hs Hp) in Hin. destruct Hin as [<-|[]].
    apply contains_SF_prefix in Hc. congruence.
  - intros pre m rest E IH Hin Hc.
    apply search_marker_some in E as (_ & Hpre & body & -> & Hb).
    assert (Hs : split newline (pre ++ ("SF:" ++ body ++ NL) ++ rest)
                 = (split newline (pre ++ "SF:" ++ body) ++ split newline rest)%list).
    { rewrite <- split_app_sep. f_equal. now rewrite !append_assoc3. }
    rewrite Hs in Hin.
    destruct (split_app_last newline pre ("SF:" ++ body) Hb) as (init & last & F & F').
    rewrite F' in Hin. apply in_app_or in Hin as [Hin|Hin].
    + apply in_app_or in Hin as [Hin|[<-|[]]].
      * exists pre. split; [now left|]. split; [now apply contains_SF_prefix|].
        rewrite F. apply in_or_app. now left.
      * now rewrite contains_SF_app in Hc.
    + destruct (IH Hin Hc) as (section & Hsec & Hsf & Hl).
      exists section. split; [now right; right | now split].
Qed.

(** A line of such a section is a line of the document or, before a marker
    that begins inside a line, the start of one. *)
Lemma content_line_document_line (content line : string) :
  content_line content line ->
  exists rest, In (line ++ rest) (split newline content).
Proof.
  unfold content_line.
  apply re_split_ind with
    (P := fun s segs =>
            (exists section,
                In section segs /\ startswith section "SF:" = false
                /\ In line (split newline section)) ->
            exists rest, In (line ++ rest) (split newline s)).
  - intros s _ (section & [<-|[]] & _ & Hin). exists "". now rewrite append_empty_r.
  - intros pre m rest E IH (section & Hsec & Hsf & Hin).
    apply search_marker_some in E as (_ & Hpre & body & -> & Hb).
    assert (Hs : split newline (pre ++ ("SF:" ++ body ++ NL) ++ rest)
                 = (split newline (pre ++ "SF:" ++ body) ++ split newline rest)%list).
    { rewrite <- split_app_sep. f_equal. now rewrite !append_assoc3. }
    rewrite Hs.
    destruct Hsec as [<-|[<-|Hsec]].
    + destruct (split_app_last newline pre ("SF:" ++ body) Hb) as (init & last & F & F').
      rewrite F in Hin. rewrite F'. apply in_app_or in Hin as [Hin|[->|[]]].
      * exists "". rewrite append_empty_r. apply in_or_app. left. apply in_or_app. now left.
      * exists ("SF:" ++ body). apply in_or_app. left. apply in_or_app. right. now left.
    + unfold startswith in Hsf. change ("SF:" ++ body ++ NL) with ("SF:" ++ (body ++ NL)) in Hsf.
      now rewrite prefix_app in Hsf.
    + destruct IH as [r Hr]; [now exists section|].
      exists r. apply in_or_app. now right.
Qed.

(** ** Carriage returns *)

Lemma universal_newlines_clear (s : string) :
  all_chars (is_not carriage_return) (universal_newlines s) = true.
Proof.
  remember (String.length s) as n eqn:Hn. revert s Hn.
  induction n as [n IH] using lt_wf_ind. intros s ->.
  destruct s as [|c s]; [reflexivity|]. cbn [universal_newlines].
  destruct (c =? carriage_return)%char eqn:Hc.
  - destruct s as [|c2 s]; [reflexivity|].
    destruct (c2 =? newline)%char; cbn [all_chars]; rewrite andb_true_l.
    + apply (IH (String.length s)); [cbn; lia | reflexivity].
    + apply (IH (String.length (String c2 s))); [cbn; lia | reflexivity].
  - cbn [all_chars]. unfold is_not at 1. rewrite Hc. cbn [negb andb].
    apply (IH (String.length s)); [cbn; lia | reflexivity].
Qed.

Lemma universal_newlines_same (s : string) :
  all_chars (is_not carriage_return) s = true -> universal_newlines s = s.
Proof.
  induction s as [|c s IH]; [reflexivity|]. cbn [all_chars universal_newlines].
  intros H. apply andb_true_iff in H as [Hc Hs].
  unfold is_not in Hc. apply negb_true_iff in Hc. now rewrite Hc, (IH Hs).
Qed.

Lemma all_chars_concat_all (p : ascii -> bool) (ls : list string) :
  all_chars p (concat_all ls) = forallb (all_chars p) ls.
Proof.
  induction ls as [|x ls IH]; [reflexivity|].
  now rewrite concat_all_cons, all_chars_app, IH.
Qed.

Lemma numeral_not_CR (c : ascii) :
  is_numeral c = true -> is_not carriage_return c = true.
Proof. destruct c as [[] [] [] [] [] [] [] []]; intros H; try discriminate; reflexivity. Qed.

Lemma line_out_clear (fnf fnh : Z) (line : string) :
  all_chars (is_not carriage_return) line = true ->
  forallb (all_chars (is_not carriage_return)) (line_out fnf fnh line) = true.
Proof.
  intros H.
  assert (N : forall p n, all_chars (is_not carriage_return) (p ++ str n)
                          = all_chars (is_not carriage_return) p).
  { intros p n. rewrite all_chars_app.
    rewrite (all_chars_weaken is_numeral _ (str n) numeral_not_CR (str_numeral n)).
    apply andb_true_r. }
  unfold line_out. destruct (is_destructor_entry line); [reflexivity|].
  destruct (startswith line "FNF:").
  { destruct (int_field ":" line); [|reflexivity]. cbn [forallb]. now rewrite N. }
  destruct (startswith line "FNH:").
  { destruct (int_field ":" line); [|reflexivity]. cbn [forallb]. now rewrite N. }
  cbn [forallb]. now rewrite H.
Qed.

Lemma lines_out_clear (lines : list string) (fnf fnh : Z) :
  forallb (all_chars (is_not carriage_return)) lines = true ->
  forallb (all_chars (is_not carriage_return)) (lines_out fnf fnh lines) = true.
Proof.
  revert fnf fnh. induction lines as [|line rest IH]; intros fnf fnh H; [reflexivity|].
  cbn [forallb] in H. apply andb_true_iff in H as [Hl Hr].
  cbn [lines_out]. rewrite forallb_app, (line_out_clear _ _ _ Hl). now apply IH.
Qed.

Lemma section_text_clear (section : string) :
  all_chars (is_not carriage_return) section = true ->
  all_chars (is_not carriage_return) (section_text section) = true.
Proof.
  intros H. unfold section_text. destruct (startswith section "SF:"); [assumption|].
  destruct (truthy (strip section)); [|reflexivity].
  unfold NL. rewrite all_chars_join by reflexivity. apply lines_out_clear.
  rewrite <- (all_chars_join _ newline) by reflexivity. now rewrite join_split.
Qed.

(** A text without carriage returns is transformed into one. *)
Lemma filter_content_clear (content out : string) (total : Z) :
  all_chars (is_not carriage_return) content = true ->
  filter_content content = ret (out, total) ->
  all_chars (is_not carriage_return) out = true.
Proof.
  intros Hc H. apply filter_content_sections in H as (-> & _ & _).
  rewrite <- (re_split_concat content), all_chars_concat_all in Hc.
  rewrite all_chars_concat_all. rewrite forallb_forall in *.
  intros t Ht. apply in_map_iff in Ht as (s & <- & Hs).
  apply section_text_clear. now apply Hc.
Qed.


(** ** The removal criterion *)

Lemma record_prefix_iff (line : string) :
  is_function_record line = true <-> has_record_prefix line.
Proof.
  unfold is_function_record, has_record_prefix, startswith. split.
  - intros H. apply orb_true_iff in H as [H|H]; [apply orb_true_iff in H as [H|H]|];
      destruct (prefix_inv _ _ H) as [r ->]; exists r; auto.
  - intros (r & [-> | [-> | ->]]).
    + now rewrite (prefix_app "FN:" r).
    + rewrite (prefix_app "FNDA:" r). now rewrite orb_true_r.
    + rewrite (prefix_app "FNA:" r). now rewrite orb_true_r.
Qed.

Lemma destructor_at_iff (s : string) :
  destructor_at s = true <->
  exists d b,
    s = String "D" (String d ("Ev" ++ b)) /\ (d = "0" \/ d = "1" \/ d = "2")%char.
Proof.
  unfold destructor_at, startswith. split.
  - intros H. apply orb_true_iff in H as [H|H]; [apply orb_true_iff in H as [H|H]|];
      destruct (prefix_inv _ _ H) as [b ->]; eexists _, b;
      (split; [reflexivity|]); auto.
  - intros (d & b & -> & [-> | [-> | ->]]).
    + change (String "D" (String "0" ("Ev" ++ b))) with ("D0Ev" ++ b).
      now rewrite (prefix_app "D0Ev" b).
    + change (String "D" (String "1" ("Ev" ++ b))) with ("D1Ev" ++ b).
      rewrite (prefix_app "D1Ev" b). now rewrite orb_true_r.
    + change (String "D" (String "2" ("Ev" ++ b))) with ("D2Ev" ++ b).
      rewrite (prefix_app "D2Ev" b). now rewrite orb_true_r.
Qed.

Lemma destructor_pattern_iff (line : string) :
  search_destructor line = true <-> has_destructor_pattern line.
Proof.
  unfold has_destructor_pattern. split.
  - induction line as [|c s IH]; [discriminate|]. cbn [search_destructor]. intros H.
    apply orb_true_iff in H as [H|H].
    + apply destructor_at_iff in H as (d & b & E & Hd). exists "", d, b.
      split; [exact E | exact Hd].
    + destruct (IH H) as (a & d & b & -> & Hd). exists (String c a), d, b.
      split; [reflexivity | exact Hd].
  - intros (a & d & b & -> & Hd). induction a as [|c a IH].
    + change ("" ++ String "D" (String d ("Ev" ++ b)))
        with (String "D" (String d ("Ev" ++ b))).
      cbn [search_destructor]. apply orb_true_iff. left.
      apply destructor_at_iff. now exists d, b.
    + change (String c a ++ String "D" (String d ("Ev" ++ b)))
        with (String c (a ++ String "D" (String d ("Ev" ++ b)))).
      cbn [search_destructor]. now rewrite IH, orb_true_r.
Qed.

Lemma function_record_not_summary (line : string) :
  is_function_record line = true ->
  startswith line "FNF:" = false /\ startswith line "FNH:" = false.
Proof.
  intros H. split.
  - destruct (startswith line "FNF:") eqn:F; [|reflexivity].
    apply FNF_not_function_record in F. congruence.
  - destruct (startswith line "FNH:") eqn:G; [|reflexivity].
    apply FNH_not_function_record in G as [G _]. congruence.
Qed.

(** A record line without the pattern is appended as it is. *)
Lemma line_body_record_kept (st : locals) (line : string) :
  is_function_record line = true -> search_destructor line = false ->
  line_body st line = ret (append_line st line).
Proof.
  intros R S. destruct (function_record_not_summary _ R) as [F G].
  unfold line_body, is_destructor_entry. now rewrite R, S, F, G.
Qed.

(** A record line with the pattern is counted and not appended, unless its
    hit count has to be read and cannot be. *)
Lemma line_body_record_removed (st : locals) (line : string) :
  is_function_record line = true -> search_destructor line = true ->
  (line_body st line = raise ValueError
   /\ startswith line "FNA:" = true
   /\ (2 <= List.length (split "," line))%nat
   /\ int_field "," line = None)
  \/ (startswith line "FNA:" = true
      /\ line_body st line = ret (count_hit (count_removed st)))
  \/ line_body st line = ret (count_removed st).
Proof.
  intros R S. unfold line_body, is_destructor_entry. rewrite R, S. cbn [andb].
  destruct (startswith line "FNA:"); [|now right; right].
  destruct (2 <=? List.length (split "," line))%nat eqn:L; [|now right; right].
  apply Nat.leb_le in L.
  destruct (int_field "," line) as [hits|]; [|now left].
  destruct (0 <? hits); [right; left; now split | now right; right].
Qed.

(** The record lines among the lines written: those without the pattern. *)
Lemma record_lines_out (lines : list string) (fnf fnh : Z) :
  existsb line_fails lines = false ->
  filter is_function_record (lines_out fnf fnh lines)
  = filter (fun l => is_function_record l && negb (search_destructor l)) lines.
Proof.
  revert fnf fnh. induction lines as [|l rest IH]; intros fnf fnh H; [reflexivity|].
  cbn [existsb] in H. apply orb_false_iff in H as [Hl H].
  cbn [lines_out filter]. rewrite filter_app, (IH _ _ H).
  unfold line_out, line_fails, is_destructor_entry, is_summary in *.
  destruct (is_function_record l) eqn:R.
  - destruct (function_record_not_summary _ R) as [F G].
    destruct (search_destructor l); cbn [andb negb]; [reflexivity|].
    rewrite F, G. cbn [filter]. now rewrite R.
  - cbn [andb] in *. destruct (startswith l "FNF:") eqn:F; cbn [orb] in Hl.
    { destruct (int_field ":" l) as [n|]; [|discriminate]. cbn [filter].
      now rewrite (FNF_not_function_record _ (prefix_app "FNF:" _)). }
    destruct (startswith l "FNH:") eqn:G.
    { destruct (int_field ":" l) as [n|]; [|discriminate]. cbn [filter].
      now rewrite (proj1 (FNH_not_function_record _ (prefix_app "FNH:" _))). }
    cbn [filter]. now rewrite R.
Qed.
(** ** Counts *)

Lemma removed_count_nonneg (lines : list string) : 0 <= removed_count lines.
Proof. unfold removed_count. lia. Qed.

Lemma removed_hit_count_nonneg (lines : list string) : 0 <= removed_hit_count lines.
Proof. unfold removed_hit_count. lia. Qed.

Lemma removed_count_zero (lines : list string) :
  removed_count lines = 0 <-> clean lines.
Proof.
  unfold clean. induction lines as [|l rest IH].
  - split; [intros _ line []|reflexivity].
  - rewrite removed_count_cons. pose proof (removed_count_nonneg rest) as N.
    destruct (is_destructor_entry l) eqn:D; cbn [Z.b2z].
    + split; [lia|]. intros H. specialize (H l (or_introl eq_refl)). congruence.
    + rewrite Z.add_0_l, IH. split.
      * intros H line [<-|Hin]; [assumption | now apply H].
      * intros H line Hin. apply H. now right.
Qed.

Lemma section_removed_nonneg (section : string) : 0 <= section_removed section.
Proof.
  unfold section_removed. destruct (is_content section); [|lia].
  apply removed_count_nonneg.
Qed.

Lemma sum_Z_app (l1 l2 : list Z) : sum_Z (l1 ++ l2) = sum_Z l1 + sum_Z l2.
Proof.
  unfold sum_Z. induction l1 as [|z l1 IH]; [reflexivity|].
  rewrite <- app_comm_cons. cbn [fold_right]. rewrite IH. lia.
Qed.

Lemma sum_Z_nonneg (l : list Z) :
  Forall (fun z => 0 <= z) l ->
  0 <= sum_Z l /\ (sum_Z l = 0 <-> Forall (fun z => z = 0) l).
Proof.
  unfold sum_Z. induction 1 as [|z l Hz Hl [IH1 IH2]]; cbn [fold_right].
  - split; [lia|]. split; [constructor | reflexivity].
  - split; [lia|]. split.
    + intros E. constructor; [lia|]. apply IH2. lia.
    + intros E. inversion E as [|? ? -> El]; subst. apply IH2 in El. lia.
Qed.

Lemma blank_section_clean (section : string) :
  all_chars isspace section = true -> clean (split newline section).
Proof.
  intros H line Hin. rewrite blank_lines, forallb_forall in H. specialize (H _ Hin).
  destruct (is_destructor_entry line) eqn:D; [|reflexivity].
  unfold is_destructor_entry in D. apply andb_true_iff in D as [D _].
  rewrite record_line_not_blank in H by now left. discriminate.
Qed.

(** ** Lines that make the loop raise *)

Lemma line_fails_malformed (line : string) :
  line_fails line = true <-> malformed line.
Proof.
  unfold line_fails, malformed. split.
  - destruct (is_destructor_entry line) eqn:D.
    + intros H. apply andb_true_iff in H as [H Hi]. apply andb_true_iff in H as [Hf Hl].
      left. unfold is_destructor_entry in D. apply andb_true_iff in D as [_ D].
      apply Nat.leb_le in Hl. repeat split; try assumption.
      now destruct (int_field "," line).
    + destruct (is_summary line); [|discriminate]. intros H. right.
      split; [reflexivity|]. now destruct (int_field ":" line).
  - intros [(Hf & Hs & Hl & Hi)|[Hs Hi]].
    + unfold is_destructor_entry, is_function_record.
      rewrite Hf, Hs, Hi, !orb_true_r. cbn [andb]. apply Nat.leb_le in Hl.
      now rewrite Hl.
    + now rewrite (summary_not_destructor _ Hs), Hs, Hi.
Qed.

Lemma malformed_not_blank (line : string) :
  malformed line -> all_chars isspace line = false.
Proof.
  intros [(Hf & _)|[Hs _]]; apply record_line_not_blank; [left|now right].
  unfold is_function_record. now rewrite Hf, !orb_true_r.
Qed.

(** ** White space only *)

Lemma space_no_marker (s : string) :
  all_chars isspace s = true -> contains "SF:" s = false.
Proof.
  intros H. apply contains_no_S. revert H. apply all_chars_weaken.
  intros c. destruct c as [[] [] [] [] [] [] [] []]; intros E; try discriminate;
    reflexivity.
Qed.

Lemma contains_none_unmatched (s : string) :
  contains "SF:" s = false -> search_marker s = None.
Proof.
  intros H. apply unmatched_iff. intros a b ->.
  now rewrite contains_SF_app in H.
Qed.

Lemma universal_newlines_space (s : string) :
  all_chars isspace s = true -> all_chars isspace (universal_newlines s) = true.
Proof.
  remember (String.length s) as n eqn:Hn. revert s Hn.
  induction n as [n IH] using lt_wf_ind. intros s -> H.
  destruct s as [|c s]; [reflexivity|]. cbn [universal_newlines all_chars] in *.
  apply andb_true_iff in H as [Hc Hs].
  destruct (c =? carriage_return)%char.
  - destruct s as [|c2 s]; [reflexivity|].
    cbn [all_chars] in Hs. apply andb_true_iff in Hs as [Hc2 Hs'].
    destruct (c2 =? newline)%char; cbn [all_chars]; rewrite andb_true_l.
    + apply (IH (String.length s)); [cbn; lia | reflexivity | assumption].
    + apply (IH (String.length (String c2 s))); [cbn; lia | reflexivity|].
      cbn [all_chars]. now rewrite Hc2, Hs'.
  - cbn [all_chars]. rewrite Hc. cbn [andb].
    apply (IH (String.length s)); [cbn; lia | reflexivity | assumption].
Qed.

(** ** Outcomes of [filter_lcov] *)

Lemma filter_content_raises_ValueError (content : string) (e : exn) :
  filter_content content = raise e -> e = ValueError.
Proof.
  rewrite filter_content_closed.
  destruct (existsb section_fails (re_split content)); [|discriminate].
  now intros [= <-].
Qed.

(** ** The lines the loop writes *)

Lemma line_out_cases (fnf fnh : Z) (l k : string) :
  In k (line_out fnf fnh l) ->
  is_destructor_entry l = false
  /\ ((is_summary l = false /\ k = l)
      \/ exists n, k = "FNF:" ++ str n \/ k = "FNH:" ++ str n).
Proof.
  unfold line_out, is_summary. destruct (is_destructor_entry l); [intros []|].
  split; [reflexivity|]. destruct (startswith l "FNF:").
  - destruct (int_field ":" l) as [n|]; [|now destruct H].
    destruct H as [<-|[]]. right. eexists. now left.
  - destruct (startswith l "FNH:").
    + destruct (int_field ":" l) as [n|]; [|now destruct H].
      destruct H as [<-|[]]. right. eexists. now right.
    + destruct H as [<-|[]]. now left.
Qed.

Lemma line_out_shape (fnf fnh : Z) (l : string) :
  line_out fnf fnh l = [] \/ exists k, line_out fnf fnh l = [k].
Proof.
  unfold line_out. destruct (is_destructor_entry l); [now left|].
  destruct (startswith l "FNF:").
  { destruct (int_field ":" l); [right; now eexists | now left]. }
  destruct (startswith l "FNH:"); [|right; now eexists].
  destruct (int_field ":" l); [right; now eexists | now left].
Qed.

Lemma canonical_not_summary (l : string) : is_summary l = false -> canonical l = l.
Proof.
  unfold is_summary, canonical. intros H. apply orb_false_iff in H as [-> ->].
  reflexivity.
Qed.

(** What holds of a line the loop writes. *)
Lemma line_out_line (fnf fnh : Z) (l k : string) :
  In k (line_out fnf fnh l) ->
  (all_chars (is_not newline) l = true -> all_chars (is_not newline) k = true)
  /\ (free_of_SF l = true -> free_of_SF k = true)
  /\ (line_fails l = false ->
      is_destructor_entry k = false /\ line_fails k = false /\ canonical k = k).
Proof.
  intros H. apply line_out_cases in H as (D & [[S ->]|[n E]]).
  - split; [auto|]. split; [auto|]. intros F. split; [exact D|]. split; [exact F|].
    now apply canonical_not_summary.
  - destruct (rendered_summary _ n E) as (P1 & P2 & P3 & P4 & P5 & _). auto.
Qed.

Lemma lines_out_in (lines : list string) (fnf fnh : Z) (k : string) :
  In k (lines_out fnf fnh lines) ->
  exists l f h, In l lines /\ In k (line_out f h l).
Proof.
  revert fnf fnh. induction lines as [|l rest IH]; intros fnf fnh H; [destruct H|].
  cbn [lines_out] in H. apply in_app_or in H as [H|H].
  - exists l, fnf, fnh. split; [now left | assumption].
  - destruct (IH _ _ H) as (l' & f & h & Hin & Hk). exists l', f, h.
    split; [now right | assumption].
Qed.

(** The lines written for a section are lines the loop, run on them again,
    neither removes nor changes nor fails on. *)
Lemma lines_out_lines (lines : list string) (fnf fnh : Z) :
  Forall (fun l => all_chars (is_not newline) l = true) lines ->
  Forall (fun l => all_chars (is_not newline) l = true) (lines_out fnf fnh lines)
  /\ (existsb line_fails lines = false ->
      clean (lines_out fnf fnh lines)
      /\ existsb line_fails (lines_out fnf fnh lines) = false
      /\ map canonical (lines_out fnf fnh lines) = lines_out fnf fnh lines).
Proof.
  intros Hn. rewrite Forall_forall in Hn. split.
  - apply Forall_forall. intros k Hk.
    apply lines_out_in in Hk as (l & f & h & Hl & Hk).
    apply (line_out_line f h l k Hk). now apply Hn.
  - intros Hok.
    assert (P : forall k, In k (lines_out fnf fnh lines) ->
                          is_destructor_entry k = false /\ line_fails k = false
                          /\ canonical k = k).
    { intros k Hk. apply lines_out_in in Hk as (l & f & h & Hl & Hk).
      apply (line_out_line f h l k Hk).
      destruct (line_fails l) eqn:F; [|reflexivity].
      assert (existsb line_fails lines = true) by (apply existsb_exists; now exists l).
      congruence. }
    split; [intros k Hk; now apply P|]. split.
    + rewrite <- Bool.not_true_iff_false. intros X.
      apply existsb_exists in X as (k & Hk & Hf). destruct (P k Hk) as (_ & F & _).
      congruence.
    + rewrite <- (map_id (lines_out fnf fnh lines)) at 2.
      apply map_ext_in. intros k Hk. now apply P.
Qed.

Lemma forallb_lines_out (lines : list string) (fnf fnh : Z) :
  forallb free_of_SF lines = true ->
  forallb free_of_SF (lines_out fnf fnh lines) = true.
Proof.
  intros H. apply forallb_forall. intros k Hk.
  apply lines_out_in in Hk as (l & f & h & Hl & Hk).
  apply (line_out_line f h l k Hk). rewrite forallb_forall in H. now apply H.
Qed.

Lemma all_but_last_lines_out (lines : list string) (fnf fnh : Z) :
  all_but_last free_of_SF lines = true ->
  all_but_last free_of_SF (lines_out fnf fnh lines) = true.
Proof.
  revert fnf fnh. induction lines as [|l rest IH]; intros fnf fnh H; [reflexivity|].
  change (lines_out fnf fnh (l :: rest))
    with (line_out fnf fnh l
          ++ lines_out (fnf + Z.b2z (is_destructor_entry l))
                       (fnh + Z.b2z (is_hit_entry l)) rest)%list.
  destruct rest as [|y rest].
  - cbn [lines_out]. rewrite app_nil_r.
    destruct (line_out_shape fnf fnh l) as [-> | [k ->]]; reflexivity.
  - cbn [all_but_last] in H. apply andb_true_iff in H as [Hl Hr].
    specialize (IH (fnf + Z.b2z (is_destructor_entry l))
                   (fnh + Z.b2z (is_hit_entry l)) Hr).
    destruct (line_out_shape fnf fnh l) as [E | [k E]]; rewrite E.
    + exact IH.
    + cbn [app].
      destruct (lines_out _ _ (y :: rest)) as [|z L]; [reflexivity|].
      change (all_but_last free_of_SF ([k] ++ z :: L))
        with (free_of_SF k && all_but_last free_of_SF (z :: L)).
      rewrite IH, andb_true_r. apply (line_out_line fnf fnh l k); [|assumption].
      rewrite E. now left.
Qed.

(** ** The partition of the output *)

Lemma section_text_partition (section : string) :
  (contains "SF:" section = false -> contains "SF:" (section_text section) = false)
  /\ (search_marker section = None -> search_marker (section_text section) = None).
Proof.
  unfold section_text. destruct (startswith section "SF:"); [now split|].
  destruct (truthy (strip section)); [|now split].
  pose proof (split_lines_no_sep newline section) as Hn.
  destruct (lines_out_lines _ 0 0 Hn) as [Hn' _].
  destruct (lines_out 0 0 (split newline section)) as [|k L] eqn:E; [now split|].
  assert (Hsplit : split newline (join NL (k :: L)) = k :: L)
    by (apply split_join; [discriminate | assumption]).
  split.
  - intros H. apply negb_true_iff. fold (free_of_SF (join NL (k :: L))).
    rewrite contains_SF_lines, Hsplit, <- E. apply forallb_lines_out.
    rewrite <- contains_SF_lines. unfold free_of_SF. now rewrite H.
  - intros H. apply search_marker_lines. rewrite Hsplit, <- E.
    apply all_but_last_lines_out. now apply search_marker_lines.
Qed.

Lemma partitioned_section_text (segs : list string) :
  partitioned segs -> partitioned (map section_text segs).
Proof.
  remember (List.length segs) as n eqn:Hn. revert segs Hn.
  induction n as [n IH] using lt_wf_ind. intros segs -> Hp.
  destruct segs as [|pre [|m rest]]; cbn [partitioned map] in *.
  - contradiction.
  - apply unmatched_iff. apply unmatched_iff in Hp.
    now apply section_text_partition.
  - destruct Hp as (Hpre & Hm & Hrest). rewrite (marker_text_kept _ Hm).
    split; [now apply section_text_partition|]. split; [assumption|].
    apply (IH (List.length rest)); [cbn; lia | reflexivity | assumption].
Qed.

(** The output of a run that returns is partitioned as the input is, piece
    by piece. *)
Lemma re_split_output (content out : string) (total : Z) :
  filter_content content = ret (out, total) ->
  re_split out = map section_text (re_split content).
Proof.
  intros H. apply filter_content_sections in H as (-> & _ & _).
  apply re_split_unique, partitioned_section_text, re_split_partitioned.
Qed.

(** ** Running the loop on its own output *)

Lemma marker_start_kept (s : string) :
  startswith s "SF:" = true -> is_destructor_entry s = false.
Proof. intros H. destruct (prefix_inv _ _ H) as [r ->]. reflexivity. Qed.

Lemma marker_section_clean (content s : string) :
  In s (re_split content) -> startswith s "SF:" = true -> clean (split newline s).
Proof.
  apply re_split_ind with
    (P := fun _ segs =>
            In s segs -> startswith s "SF:" = true -> clean (split newline s)).
  - intros t Ht [->|[]] Hs line Hin.
    rewrite (unmatched_marker_start _ Ht Hs) in Hin. destruct Hin as [<-|[]].
    now apply marker_start_kept.
  - intros pre m rest E IH [->|[->|Hin]] Hs.
    + apply search_marker_some in E as (_ & Hc & _).
      apply contains_SF_prefix in Hc. unfold startswith in Hs. congruence.
    + apply search_marker_some in E as (_ & _ & Hm).
      intros line Hin. now apply (marker_lines_kept s).
    + now apply IH.
Qed.

(** The text written for a section of a run that returns has no line left
    to remove and none the loop fails on. *)
Lemma section_text_settled (content s : string) :
  In s (re_split content) -> section_fails s = false ->
  clean (split newline (section_text s)) /\ section_fails (section_text s) = false.
Proof.
  intros Hin Hok. unfold section_fails, is_content in Hok. unfold section_text.
  destruct (startswith s "SF:") eqn:Hsf.
  { split; [now apply (marker_section_clean content)|].
    unfold section_fails, is_content. now rewrite Hsf. }
  destruct (truthy (strip s)); cbn [negb andb] in Hok.
  2:{ split; [intros line [<-|[]]|]; reflexivity. }
  pose proof (split_lines_no_sep newline s) as Hn.
  destruct (lines_out_lines _ 0 0 Hn) as [Hn' Hl]. destruct (Hl Hok) as (C & F & _).
  destruct (lines_out 0 0 (split newline s)) as [|k L] eqn:E.
  { split; [intros line [<-|[]]|]; reflexivity. }
  assert (Hsplit : split newline (join NL (k :: L)) = k :: L)
    by (apply split_join; [discriminate | assumption]).
  rewrite Hsplit. split; [exact C|].
  unfold section_fails. now rewrite Hsplit, F, andb_false_r.
Qed.

(** A document whose sections have no line to remove and none the loop
    fails on is turned into a text the loop leaves as it is. *)
Lemma clean_sections_fixed (content : string) :
  Forall (fun s => clean (split newline s) /\ section_fails s = false)
         (re_split content) ->
  exists out,
    filter_content content = ret (out, 0) /\ filter_content out = ret (out, 0).
Proof.
  intros A. exists (concat_all (map section_text (re_split content))).
  rewrite Forall_forall in A.
  assert (Z0 : sum_Z (map section_removed (re_split content)) = 0).
  { apply sum_Z_zero, Forall_forall. intros z Hz.
    apply in_map_iff in Hz as (s & <- & Hs). destruct (A _ Hs) as [Hc Hok].
    now apply (section_text_fixed s Hc Hok). }
  assert (E0 : existsb section_fails (re_split content) = false).
  { rewrite <- Bool.not_true_iff_false. intros X.
    apply existsb_exists in X as (s & Hs & Hf). destruct (A _ Hs) as [_ Hok].
    congruence. }
  split; [now rewrite filter_content_closed, E0, Z0|].
  assert (S : re_split (concat_all (map section_text (re_split content)))
              = map section_text (re_split content)).
  { apply re_split_unique, partitioned_section_text, re_split_partitioned. }
  rewrite filter_content_closed, S, !map_map.
  assert (E : existsb section_fails (map section_text (re_split content)) = false).
  { rewrite <- Bool.not_true_iff_false. intros X.
    apply existsb_exists in X as (t & Ht & Hf).
    apply in_map_iff in Ht as (s & <- & Hs). destruct (A _ Hs) as [Hc Hok].
    destruct (section_text_fixed s Hc Hok) as (_ & N & _). congruence. }
  rewrite E. f_equal. f_equal.
  - f_equal. apply map_ext_in. intros s Hs. destruct (A _ Hs) as [Hc Hok].
    now apply (section_text_fixed s Hc Hok).
  - apply sum_Z_zero, Forall_forall. intros z Hz.
    apply in_map_iff in Hz as (s & <- & Hs). destruct (A _ Hs) as [Hc Hok].
    now apply (section_text_fixed s Hc Hok).
Qed.

(** ** The lines that are kept *)

Lemma lines_out_kept (lines : list string) (fnf fnh removed hits : Z) :
  existsb line_fails lines = false ->
  0 <= fnf -> 0 <= fnh ->
  fnf + removed_count lines <= removed ->
  fnh + removed_hit_count lines <= hits ->
  Forall2 (kept_as removed hits)
          (filter (fun l => negb (is_destructor_entry l)) lines)
          (lines_out fnf fnh lines).
Proof.
  revert fnf fnh. induction lines as [|l rest IH]; intros fnf fnh Hok Hf Hh Hr Hhit;
    [constructor|].
  cbn [existsb] in Hok. apply orb_false_iff in Hok as [Hl Hok].
  rewrite removed_count_cons in Hr. rewrite removed_hit_count_cons in Hhit.
  pose proof (removed_count_nonneg rest) as N1.
  pose proof (removed_hit_count_nonneg rest) as N2.
  assert (B1 : 0 <= Z.b2z (is_destructor_entry l)) by (destruct (is_destructor_entry l); cbn; lia).
  assert (B2 : 0 <= Z.b2z (is_hit_entry l)) by (destruct (is_hit_entry l); cbn; lia).
  cbn [filter lines_out].
  specialize (IH (fnf + Z.b2z (is_destructor_entry l)) (fnh + Z.b2z (is_hit_entry l))
                 Hok ltac:(lia) ltac:(lia) ltac:(lia) ltac:(lia)).
  unfold line_out, line_fails in *.
  destruct (is_destructor_entry l) eqn:D; cbn [negb]; [exact IH|].
  unfold is_summary in Hl.
  destruct (startswith l "FNF:") eqn:F; cbn [orb] in Hl.
  { destruct (int_field ":" l) as [n|] eqn:E; [|discriminate].
    constructor; [|exact IH]. right. left. exists n, fnf.
    repeat split; try assumption; lia. }
  destruct (startswith l "FNH:") eqn:G.
  { destruct (int_field ":" l) as [n|] eqn:E; [|discriminate].
    constructor; [|exact IH]. right. right. exists n, fnh.
    repeat split; try assumption; lia. }
  constructor; [|exact IH]. left. unfold is_summary. now rewrite F, G.
Qed.

Lemma filter_lengths {A : Type} (p : A -> bool) (l : list A) :
  (List.length (filter (fun x => negb (p x)) l) + List.length (filter p l)
   = List.length l)%nat.
Proof.
  induction l as [|x l IH]; [reflexivity|]. cbn [filter].
  destruct (p x); cbn [negb List.length]; lia.
Qed.

Lemma lines_out_same (lines : list string) (fnf fnh : Z) :
  forallb (fun l => negb (is_rewritten l)) lines = true ->
  lines_out fnf fnh lines = lines
  /\ existsb line_fails lines = false
  /\ removed_count lines = 0.
Proof.
  revert fnf fnh. induction lines as [|l rest IH]; intros fnf fnh H;
    [repeat split|].
  cbn [forallb] in H. apply andb_true_iff in H as [Hl H].
  unfold is_rewritten in Hl. apply negb_true_iff, orb_false_iff in Hl as [D S].
  destruct (IH (fnf + Z.b2z (is_destructor_entry l)) (fnh + Z.b2z (is_hit_entry l)) H)
    as (E1 & E2 & E3).
  cbn [lines_out existsb]. rewrite E1, E2, removed_count_cons, E3, D.
  unfold line_out, line_fails. rewrite D, S.
  unfold is_summary in S. apply orb_false_iff in S as [-> ->].
  repeat split.
Qed.

(** ** Documents put one after another *)

Lemma ends_line_cons (c : ascii) (s : string) :
  s <> "" -> ends_line (String c s) = ends_line s.
Proof. destruct s; [easy | reflexivity]. Qed.

Lemma no_newline_open (s : string) :
  s <> "" -> all_chars (is_not newline) s = true -> ends_line s = false.
Proof.
  induction s as [|c s IH]; [easy|]. intros _ H. cbn [all_chars] in H.
  apply andb_true_iff in H as [Hc Hs]. unfold is_not in Hc. apply negb_true_iff in Hc.
  destruct s as [|d s]; [exact Hc|].
  rewrite ends_line_cons by discriminate. now apply IH.
Qed.

Lemma ends_line_app (a b : string) : b <> "" -> ends_line (a ++ b) = ends_line b.
Proof.
  intros Hb. induction a as [|c a IH]; [reflexivity|].
  cbn [append]. rewrite ends_line_cons; [exact IH|].
  destruct a; [exact Hb | discriminate].
Qed.

Lemma ends_line_free (s : string) :
  search_marker s = None -> ends_line s = true -> contains "SF:" s = false.
Proof.
  induction s as [|c s IH]; [reflexivity|]. intros H He.
  rewrite search_marker_eq in H.
  destruct (match_marker (String c s)) as [[m r]|] eqn:M; [discriminate|].
  destruct (search_marker s) as [[[p m] r]|] eqn:S; [discriminate|].
  cbn [contains]. apply orb_false_iff. split.
  - destruct (String.prefix "SF:" (String c s)) eqn:P; [|reflexivity].
    destruct (prefix_inv _ _ P) as [r Hr]. rewrite Hr in M, He.
    rewrite match_marker_prefix in M.
    destruct (through_newline r) as [[b t]|] eqn:T; [discriminate|].
    apply through_newline_none in T.
    destruct r as [|d r]; [discriminate|].
    rewrite (ends_line_app "SF:" (String d r)) in He by discriminate.
    rewrite no_newline_open in He; [discriminate | discriminate | exact T].
  - destruct s as [|d s]; [reflexivity|].
    apply IH; [reflexivity|]. now rewrite ends_line_cons in He by discriminate.
Qed.

(** [re.split] on a text that ends a line, followed by a match and more. *)
Lemma re_split_app (d m rest : string) :
  ends_line d = true -> is_marker_text m ->
  re_split (d ++ m ++ rest) = (re_split d ++ m :: re_split rest)%list.
Proof.
  intros He Hm. revert He.
  apply re_split_ind with
    (P := fun t segs =>
            ends_line t = true ->
            re_split (t ++ m ++ rest) = (segs ++ m :: re_split rest)%list).
  - intros t Ht He. rewrite re_split_eq.
    now rewrite (search_marker_app t m rest (ends_line_free _ Ht He) Hm).
  - intros pre m' rest' E IH He.
    apply search_marker_some in E as (_ & Hc & Hm').
    assert (He' : ends_line rest' = true).
    { destruct rest' as [|c r]; [reflexivity|].
      rewrite <- append_assoc3 in He.
      now rewrite (ends_line_app (pre ++ m') (String c r)) in He by discriminate. }
    replace ((pre ++ m' ++ rest') ++ m ++ rest)
      with (pre ++ m' ++ (rest' ++ m ++ rest)).
    2:{ now rewrite !append_assoc3. }
    rewrite re_split_eq, (search_marker_app pre m' _ Hc Hm'), (IH He').
    reflexivity.
Qed.

Lemma re_split_marker (m rest : string) :
  is_marker_text m -> re_split (m ++ rest) = "" :: m :: re_split rest.
Proof.
  intros Hm. rewrite re_split_eq.
  change (m ++ rest) with ("" ++ m ++ rest).
  now rewrite (search_marker_app "" m rest eq_refl Hm).
Qed.

(** ** The counters of the inner loop *)

Lemma hit_entry_removed (line : string) :
  is_hit_entry line = true -> is_destructor_entry line = true.
Proof.
  destruct (is_destructor_entry line) eqn:D; [reflexivity|].
  now rewrite (hit_entry_destructor _ D).
Qed.

Lemma removed_hit_count_le (lines : list string) :
  removed_hit_count lines <= removed_count lines.
Proof.
  induction lines as [|l rest IH]; [reflexivity|].
  rewrite removed_count_cons, removed_hit_count_cons.
  destruct (is_hit_entry l) eqn:H.
  - rewrite (hit_entry_removed _ H). lia.
  - destruct (is_destructor_entry l); cbn [Z.b2z]; lia.
Qed.

Lemma lines_out_length (lines : list string) (fnf fnh : Z) :
  existsb line_fails lines = false ->
  Z.of_nat (List.length (lines_out fnf fnh lines))
  = Z.of_nat (List.length lines) - removed_count lines.
Proof.
  revert fnf fnh. induction lines as [|l rest IH]; intros fnf fnh H; [reflexivity|].
  cbn [existsb] in H. apply orb_false_iff in H as [Hl H].
  cbn [lines_out]. rewrite length_app, Nat2Z.inj_add, (IH _ _ H), removed_count_cons.
  cbn [List.length]. unfold line_out, line_fails in *.
  destruct (is_destructor_entry l); cbn [Z.b2z List.length]; [lia|].
  unfold is_summary in Hl. destruct (startswith l "FNF:"); cbn [orb] in Hl.
  { destruct (int_field ":" l); [cbn [List.length]; lia | discriminate]. }
  destruct (startswith l "FNH:"); [|cbn [List.length]; lia].
  destruct (int_field ":" l); [cbn [List.length]; lia | discriminate].
Qed.


(** ** Properties of the transformation *)

(** *** The counters of a section *)

(** C1, as stated, fails: the sections of the loop are the pieces of the
    partition, not the stretches between [SF:] lines.  The document below
    has one [SF:] line; in the section after it the records precede the
    summary line and one record is removed, so [FNF:2] should become
    [FNF:1].  The second record names a function [SF::run()], and the
    partition cuts the section there: the counters restart at 0 behind the
    cut, and [FNF:2] is written as it came. *)
Lemma C1_section_cut_inside_a_line :
  marker_lines marker_in_record_input = ["SF:a.cpp" ++ NL]
  /\ records_precede_summaries (split newline marker_in_record_section) = true
  /\ removed_count (split newline marker_in_record_section) = 1
  /\ expected_section (split newline marker_in_record_section)
     = Some ["FN:2,SF::run()"; "FNF:1"; "end_of_record"; ""]
  /\ re_split marker_in_record_input
     = [""; "SF:a.cpp" ++ NL; "FN:1,_ZN1XD0Ev" ++ NL ++ "FN:2,"; "SF::run()" ++ NL;
        "FNF:2" ++ NL ++ "end_of_record" ++ NL]
  /\ filter_content marker_in_record_input
     = ret ("SF:a.cpp" ++ NL ++ "FN:2,SF::run()" ++ NL ++ "FNF:2" ++ NL
            ++ "end_of_record" ++ NL, 1).
Proof. repeat split; vm_compute; reflexivity. Qed.

(** C1, amended: the property holds of the pieces of the partition.  A run
    that returns is made of the runs of its pieces, each alone from
    counters at 0: the output is the concatenation of their texts and the
    total the sum of their counts, so no piece's removals reach the summary
    lines of another.  The count of a piece the inner loop runs on is the
    number of its removed lines.  When its [FN:], [FNDA:] and [FNA:] lines
    all precede its [FNF:] and [FNH:] lines, its text is the piece as the
    specification words it for a section: removed lines dropped, every
    [FNF:] line carrying its number minus the number of removed lines,
    every [FNH:] line its number minus the number of removed [FNA:] lines
    whose second field is greater than 0. *)
Theorem C1_counter_invariant (content out : string) (total : Z) :
  filter_content content = ret (out, total) ->
  exists pieces : list (string * Z),
    out = concat_all (map fst pieces)
    /\ total = sum_Z (map snd pieces)
    /\ Forall2
         (fun section piece =>
            run_section section = ret piece
            /\ (is_content section = false -> snd piece = 0)
            /\ (is_content section = true ->
                snd piece = removed_count (split newline section)
                /\ (records_precede_summaries (split newline section) = true ->
                    exists lines',
                      expected_section (split newline section) = Some lines'
                      /\ fst piece = join NL lines')))
         (re_split content) pieces.
Proof.
  intros H. apply filter_content_sections in H as (-> & -> & F).
  exists (map (fun s => (section_text s, section_removed s)) (re_split content)).
  rewrite !map_map. cbn [fst snd]. split; [reflexivity|]. split; [reflexivity|].
  apply Forall2_map_both. revert F. apply Forall_impl.
  intros section [Hok Hrun]. split; [exact Hrun|]. cbn [fst snd].
  unfold section_removed. split; [now intros ->|]. intros Hc. rewrite Hc.
  split; [reflexivity|]. intros Hord.
  unfold section_fails in Hok. rewrite Hc in Hok. cbn [andb] in Hok.
  unfold is_content in Hc. apply andb_true_iff in Hc as [Hsf Hne].
  apply negb_true_iff in Hsf. unfold section_text. rewrite Hsf, Hne.
  eexists. split; [|reflexivity]. unfold expected_section.
  rewrite <- (lines_out_expected _ 0 0 Hord Hok). reflexivity.
Qed.

Lemma C1_counter_invariant_witness :
  filter_content two_sections_input = ret (two_sections_output, 2)
  /\ exists pieces : list (string * Z),
      two_sections_output = concat_all (map fst pieces)
      /\ 2 = sum_Z (map snd pieces).
Proof.
  assert (E : filter_content two_sections_input = ret (two_sections_output, 2))
    by (vm_compute; reflexivity).
  split; [exact E|].
  destruct (C1_counter_invariant _ _ _ E) as (pieces & Ho & Ht & _).
  now exists pieces.
Defined.

(** *** Scenario A *)

(** C2: on the document of scenario A the transformation yields exactly the
    expected text and counts 2 removed lines: the [FN:] and the [FNDA:] line
    of the destructor are dropped, [FNF] becomes 2 - 2 = 0 and [FNH] stays
    1 - 0 = 1.  Run through the files, [filter_lcov] writes that text to the
    output path and prints the count. *)
Theorem C2_scenario_A :
  filter_content scenario_A_input = ret (scenario_A_output, 2)
  /\ forall (w : world) (input_file output_file : string),
      files w input_file = Some scenario_A_input ->
      writable w output_file = true ->
      exists w',
        filter_lcov input_file output_file w = (ret tt, w')
        /\ files w' output_file = Some scenario_A_output
        /\ stdout w' = (stdout w ++ ["Filtered 2 destructor entries"])%list.
Proof.
  assert (E : filter_content scenario_A_input = ret (scenario_A_output, 2))
    by (vm_compute; reflexivity).
  split; [exact E|].
  intros w input_file output_file Hin Hout. unfold filter_lcov. rewrite Hin.
  change (universal_newlines scenario_A_input) with scenario_A_input.
  rewrite E. unfold ret. rewrite Hout. eexists. split; [reflexivity|].
  cbn [files write_file print stdout]. rewrite String.eqb_refl.
  split; reflexivity.
Qed.

(** *** Removal of a function record *)

(** C3, as stated, fails for one kind of line: an [FNA:] line with the
    pattern, at least two fields and a second field that is not an integer
    is neither dropped and counted nor passed through.  The step raises,
    and the run ends without output and without a count. *)
Lemma C3_malformed_record_raises :
  has_record_prefix "FNA:1,x,_ZN1XD0Ev"
  /\ has_destructor_pattern "FNA:1,x,_ZN1XD0Ev"
  /\ line_body initial_locals "FNA:1,x,_ZN1XD0Ev" = raise ValueError
  /\ filter_content ("SF:a.cpp" ++ NL ++ "FNA:1,x,_ZN1XD0Ev" ++ NL ++ "FNF:1" ++ NL)
     = raise ValueError.
Proof.
  split; [exists "1,x,_ZN1XD0Ev"; auto|].
  split; [exists "FNA:1,x,_ZN1X", "0"%char, ""; auto|].
  split; vm_compute; reflexivity.
Qed.

(** C3, amended.  The two conditions of the loop are the ones of the
    specification: the prefixes [FN:], [FNDA:], [FNA:], and the pattern
    [D], a digit among 0, 1, 2, [Ev] anywhere in the line.  A line with one
    of the prefixes and without the pattern is appended to [filtered_lines]
    as it is, and no counter moves.  One with the pattern is never
    appended: the step advances [fnf_adjust] and [total_filtered] by 1, the
    same counters for the three prefixes, or, for an [FNA:] line with at
    least two fields whose second field is not an integer, it raises.  For
    [FN:] and [FNDA:] lines it never raises.  So a step that returns has
    dropped the line and counted it once exactly when the line has the
    pattern, and of a section that is run, the record lines written are its
    record lines without the pattern, unchanged and in their order, while
    its count is the number of its record lines with the pattern. *)
Theorem C3_removal_criterion :
  (forall line,
      (is_function_record line = true <-> has_record_prefix line)
      /\ (search_destructor line = true <-> has_destructor_pattern line))
  /\ (forall (st : locals) (line : string),
        has_record_prefix line -> ~ has_destructor_pattern line ->
        exists st',
          line_body st line = ret st'
          /\ filtered_lines st' = (filtered_lines st ++ [line])%list
          /\ fnf_adjust st' = fnf_adjust st
          /\ fnh_adjust st' = fnh_adjust st
          /\ total_filtered st' = total_filtered st)
  /\ (forall (st : locals) (line : string),
        has_record_prefix line -> has_destructor_pattern line ->
        (line_body st line = raise ValueError
         /\ startswith line "FNA:" = true
         /\ (2 <= List.length (split "," line))%nat
         /\ int_field "," line = None)
        \/ (exists st',
               line_body st line = ret st'
               /\ filtered_lines st' = filtered_lines st
               /\ fnf_adjust st' = fnf_adjust st + 1
               /\ total_filtered st' = total_filtered st + 1))
  /\ (forall (st : locals) (line r : string),
        line = "FN:" ++ r \/ line = "FNDA:" ++ r ->
        has_destructor_pattern line ->
        exists st',
          line_body st line = ret st'
          /\ filtered_lines st' = filtered_lines st
          /\ fnf_adjust st' = fnf_adjust st + 1
          /\ fnh_adjust st' = fnh_adjust st
          /\ total_filtered st' = total_filtered st + 1)
  /\ (forall (st st' : locals) (line : string),
        has_record_prefix line ->
        line_body st line = ret st' ->
        (has_destructor_pattern line <->
         filtered_lines st' = filtered_lines st
         /\ fnf_adjust st' = fnf_adjust st + 1
         /\ total_filtered st' = total_filtered st + 1))
  /\ (forall (section piece : string) (k : Z),
        is_content section = true ->
        run_section section = ret (piece, k) ->
        exists kept,
          piece = join NL kept
          /\ filter is_function_record kept
             = filter (fun l => is_function_record l && negb (search_destructor l))
                      (split newline section)
          /\ k = Z.of_nat
                   (List.length
                      (filter (fun l => is_function_record l && search_destructor l)
                              (split newline section))))
  /\ filter_content ("FN:10,_ZN3FooD1Ev" ++ NL ++ "FN:5,doWork")
     = ret ("FN:5,doWork", 1)
  /\ filter_content ("FNDA:3,_ZN3FooD0Ev" ++ NL ++ "FNA:7,1,_ZN3FooD2Ev" ++ NL
                     ++ "FNA:9,1,doWork" ++ NL ++ "FNF:3")
     = ret ("FNA:9,1,doWork" ++ NL ++ "FNF:1", 2).
Proof.
  assert (Kept : forall (st : locals) (line : string),
             has_record_prefix line -> ~ has_destructor_pattern line ->
             line_body st line = ret (append_line st line)).
  { intros st line Hp Hn. apply line_body_record_kept; [now apply record_prefix_iff|].
    destruct (search_destructor line) eqn:S; [|reflexivity].
    elim Hn. now apply destructor_pattern_iff. }
  assert (Removed : forall (st : locals) (line : string),
             has_record_prefix line -> has_destructor_pattern line ->
             (line_body st line = raise ValueError
              /\ startswith line "FNA:" = true
              /\ (2 <= List.length (split "," line))%nat
              /\ int_field "," line = None)
             \/ (startswith line "FNA:" = true
                 /\ line_body st line = ret (count_hit (count_removed st)))
             \/ line_body st line = ret (count_removed st)).
  { intros st line Hp Hd.
    apply line_body_record_removed;
      [now apply record_prefix_iff | now apply destructor_pattern_iff]. }
  split; [intros line; split; [apply record_prefix_iff | apply destructor_pattern_iff]|].
  split.
  { intros st line Hp Hn. exists (append_line st line).
    split; [now apply Kept|]. repeat split. }
  split.
  { intros st line Hp Hd. destruct (Removed st line Hp Hd) as [E|[[_ E]|E]].
    - now left.
    - right. exists (count_hit (count_removed st)). split; [exact E|]. repeat split.
    - right. exists (count_removed st). split; [exact E|]. repeat split. }
  split.
  { intros st line r Hr Hd. exists (count_removed st).
    split; [|repeat split].
    assert (Hp : has_record_prefix line)
      by (exists r; destruct Hr as [-> | ->]; auto).
    destruct (Removed st line Hp Hd) as [(_ & F & _)|[[F _]|E]]; [| |exact E];
      destruct Hr as [-> | ->]; discriminate F. }
  split.
  { intros st st' line Hp Hst. split.
    - intros Hd. destruct (Removed st line Hp Hd) as [[E _]|[[_ E]|E]];
        rewrite E in Hst; [discriminate | |]; injection Hst as <-; repeat split.
    - intros (_ & Hf & _).
      destruct (search_destructor line) eqn:S; [now apply destructor_pattern_iff|].
      assert (Hn : ~ has_destructor_pattern line).
      { intros Hd. apply destructor_pattern_iff in Hd. congruence. }
      rewrite (Kept st line Hp Hn) in Hst. injection Hst as <-.
      cbn [append_line fnf_adjust] in Hf. lia. }
  split.
  { intros section piece k Hc. rewrite run_section_closed. unfold section_fails.
    rewrite Hc. cbn [andb].
    destruct (existsb line_fails (split newline section)) eqn:Hok; [discriminate|].
    unfold section_text, section_removed. rewrite Hc.
    unfold is_content in Hc. apply andb_true_iff in Hc as [Hsf Ht].
    apply negb_true_iff in Hsf. rewrite Hsf, Ht. intros [= <- <-].
    exists (lines_out 0 0 (split newline section)).
    split; [reflexivity|]. split; [now apply record_lines_out | reflexivity]. }
  split; vm_compute; reflexivity.
Qed.

Lemma C3_removal_examples :
  (exists st',
      line_body initial_locals "FN:5,doWork" = ret st'
      /\ filtered_lines st' = ["FN:5,doWork"])
  /\ (exists st',
        line_body initial_locals "FN:10,_ZN3FooD1Ev" = ret st'
        /\ filtered_lines st' = []
        /\ fnf_adjust st' = 1
        /\ total_filtered st' = 1).
Proof.
  destruct C3_removal_criterion as (_ & Kept & _ & Removed & _). split.
  - destruct (Kept initial_locals "FN:5,doWork") as (st' & E & Hl & _).
    + exists "5,doWork". now left.
    + intros H. apply destructor_pattern_iff in H. discriminate H.
    + exists st'. split; [exact E | exact Hl].
  - destruct (Removed initial_locals "FN:10,_ZN3FooD1Ev" "10,_ZN3FooD1Ev")
      as (st' & E & Hl & Hf & _ & Ht).
    + now left.
    + exists "FN:10,_ZN3Foo", "1"%char, "". split; [reflexivity | auto].
    + exists st'. split; [exact E|]. split; [exact Hl|]. split; [exact Hf | exact Ht].
Defined.

(** *** Lines passed through *)

(** C4, as stated, fails: a piece between markers that holds nothing but
    white space is skipped, its blank lines with it.  The blank line before
    the first marker and the blank line between two markers are both lost. *)
Lemma C4_blank_lines_dropped :
  filter_content (NL ++ "SF:a" ++ NL) = ret ("SF:a" ++ NL, 0)
  /\ filter (fun l => passes_through l && negb (startswith l "SF:"))
            (split newline (NL ++ "SF:a" ++ NL)) = [""; ""]
  /\ filter (fun l => passes_through l && negb (startswith l "SF:"))
            (split newline ("SF:a" ++ NL)) = [""]
  /\ filter_content ("SF:a" ++ NL ++ NL ++ "SF:b" ++ NL)
     = ret ("SF:a" ++ NL ++ "SF:b" ++ NL, 0).
Proof. repeat split; vm_compute; reflexivity. Qed.

(** C4, amended: the output is the concatenation of what the sections
    yield, each run alone.  A marker is kept as it is; a section with a
    character that is not white space yields the join of lines among which
    those that start with none of [FN:], [FNDA:], [FNA:], [FNF:], [FNH:]
    are the section's own such lines, unmodified and in the same order; a
    section of white space only yields nothing. *)
Theorem C4_pass_through (content out : string) (total : Z) :
  filter_content content = ret (out, total) ->
  exists pieces : list string,
    out = concat_all pieces
    /\ Forall2
         (fun section piece =>
            (exists k, run_section section = ret (piece, k))
            /\ if startswith section "SF:" then piece = section
               else if truthy (strip section) then
                 exists kept,
                   piece = join NL kept
                   /\ filter passes_through kept
                      = filter passes_through (split newline section)
               else piece = "")
         (re_split content) pieces.
Proof.
  intros H. apply filter_content_sections in H as (-> & _ & F).
  exists (map section_text (re_split content)). split; [reflexivity|].
  apply Forall2_map_both. revert F. apply Forall_impl.
  intros section [Hok Hrun]. split; [eexists; exact Hrun|].
  unfold section_text. unfold section_fails, is_content in Hok.
  destruct (startswith section "SF:"); [reflexivity|].
  destruct (truthy (strip section)); [|reflexivity].
  cbn [negb andb] in Hok. eexists. split; [reflexivity|].
  now apply passes_through_lines_out.
Qed.

Lemma C4_pass_through_witness :
  exists pieces : list string,
    "DA:1,1" ++ NL ++ "SF:a" ++ NL = concat_all pieces.
Proof.
  destruct (C4_pass_through ("DA:1,1" ++ NL ++ "SF:a" ++ NL ++ NL)
                            ("DA:1,1" ++ NL ++ "SF:a" ++ NL) 0)
    as (pieces & E & _).
  - vm_compute. reflexivity.
  - now exists pieces.
Defined.

(** *** The partition *)

(** C5, as stated, fails: a match of the pattern may begin in the middle of
    a line.  In [xSF:a] followed by a newline the only line does not start
    with [SF:], and yet [SF:a] with its newline is split off and passed
    through as a marker. *)
Lemma C5_marker_inside_a_line :
  re_split ("xSF:a" ++ NL) = ["x"; "SF:a" ++ NL; ""]
  /\ marker_sections (re_split ("xSF:a" ++ NL)) = ["SF:a" ++ NL]
  /\ marker_lines ("xSF:a" ++ NL) = []
  /\ marker_sections (re_split ("xSF:a" ++ NL)) <> marker_lines ("xSF:a" ++ NL).
Proof. repeat split; try (vm_compute; reflexivity). vm_compute. discriminate. Qed.

(** C5, amended: the pieces concatenate to the text, and they are the text
    cut at the successive leftmost matches of [SF:.*?\n] wherever in a line
    each begins: pieces without any [SF:] alternate with matches ([SF:], then
    characters other than the newline, then the newline), and in the last
    piece no [SF:] has a newline after it.  No other list of that shape
    concatenates to the text. *)
Theorem C5_partition (s : string) :
  concat_all (re_split s) = s
  /\ partitioned (re_split s)
  /\ (forall segs, partitioned segs -> concat_all segs = s -> segs = re_split s).
Proof.
  split; [apply re_split_concat|]. split; [apply re_split_partitioned|].
  intros segs Hp <-. symmetry. now apply re_split_unique.
Qed.

(** *** Malformed numbers *)

(** C6, as stated, fails: the hit count of an [FNA:] line is parsed only
    when the line is being removed.  An [FNA:] line without the destructor
    pattern passes through, whatever its second field. *)
Lemma C6_unparsed_hit_count :
  split "," "FNA:foo,abc" = ["FNA:foo"; "abc"]
  /\ int "abc" = None
  /\ filter_content ("FNA:foo,abc" ++ NL) = ret ("FNA:foo,abc" ++ NL, 0).
Proof. repeat split; vm_compute; reflexivity. Qed.

(** C6, amended: a document with, in a section that is not a marker, an
    [FNA:] line that contains the destructor pattern and whose second
    comma-separated field is not an integer makes the transformation raise
    [ValueError]; [filter_lcov] lets it escape and leaves the files and the
    output as they were. *)
Theorem C6_malformed_hit_count (content line : string) :
  content_line content line ->
  startswith line "FNA:" = true ->
  search_destructor line = true ->
  (2 <= List.length (split "," line))%nat ->
  int_field "," line = None ->
  filter_content content = raise ValueError
  /\ forall (w : world) (input_file output_file text : string),
      files w input_file = Some text ->
      universal_newlines text = content ->
      filter_lcov input_file output_file w = (raise ValueError, w).
Proof.
  intros (section & Hsec & Hsf & Hline) Hfna Hd Hlen Hint.
  assert (Hrec : is_function_record line = true).
  { unfold is_function_record. rewrite Hfna. now rewrite !orb_true_r. }
  assert (E : filter_content content = raise ValueError).
  { apply (filter_content_fails content section line); try assumption.
    - apply record_line_not_blank. now left.
    - unfold line_fails, is_destructor_entry. rewrite Hrec, Hd, Hfna, Hint.
      apply Nat.leb_le in Hlen. now rewrite Hlen. }
  split; [exact E|]. intros w input_file output_file text Hin <-.
  now apply filter_lcov_raises with (text := text).
Qed.

Lemma C6_malformed_hit_count_witness :
  filter_content ("SF:a.cpp" ++ NL ++ "FNA:1,x,_ZN1XD0Ev" ++ NL) = raise ValueError.
Proof.
  apply (C6_malformed_hit_count
           ("SF:a.cpp" ++ NL ++ "FNA:1,x,_ZN1XD0Ev" ++ NL) "FNA:1,x,_ZN1XD0Ev").
  - exists ("FNA:1,x,_ZN1XD0Ev" ++ NL). split; [|split].
    + vm_compute. right. right. now left.
    + reflexivity.
    + vm_compute. now left.
  - reflexivity.
  - reflexivity.
  - vm_compute. lia.
  - reflexivity.
Defined.

(** C7, as stated, fails: the number of a summary line is the text between
    its first colon and the next one, not the whole remainder of the line.
    The remainder of [FNF:3:extra] is not an integer, and the line is
    rewritten to [FNF:3] without any failure. *)
Lemma C7_second_colon :
  int "3:extra" = None
  /\ re_split "FNF:3:extra" = ["FNF:" ++ "3:extra"]
  /\ is_content "FNF:3:extra" = true
  /\ filter_content "FNF:3:extra" = ret ("FNF:3", 0).
Proof. repeat split; vm_compute; reflexivity. Qed.

(** C7, amended: a document with, in a section that is not a marker, an
    [FNF:] or [FNH:] line whose text between the first colon and the next
    colon (or the end of the line) is not an integer makes the
    transformation raise [ValueError]; [filter_lcov] lets it escape before
    it opens the output file, so the files are left as they were and
    nothing is printed. *)
Theorem C7_malformed_summary (content line : string) :
  content_line content line ->
  is_summary line = true ->
  int_field ":" line = None ->
  filter_content content = raise ValueError
  /\ forall (w : world) (input_file output_file text : string),
      files w input_file = Some text ->
      universal_newlines text = content ->
      filter_lcov input_file output_file w = (raise ValueError, w).
Proof.
  intros (section & Hsec & Hsf & Hline) Hsum Hint.
  assert (E : filter_content content = raise ValueError).
  { apply (filter_content_fails content section line); try assumption.
    - apply record_line_not_blank. now right.
    - unfold line_fails. now rewrite (summary_not_destructor _ Hsum), Hsum, Hint. }
  split; [exact E|]. intros w input_file output_file text Hin <-.
  now apply filter_lcov_raises with (text := text).
Qed.

Lemma C7_malformed_summary_witness :
  filter_content ("SF:a.cpp" ++ NL ++ "FNF:abc" ++ NL) = raise ValueError.
Proof.
  apply (C7_malformed_summary
           ("SF:a.cpp" ++ NL ++ "FNF:abc" ++ NL) "FNF:abc").
  - exists ("FNF:abc" ++ NL). split; [|split].
    + vm_compute. right. right. now left.
    + reflexivity.
    + vm_compute. now left.
  - reflexivity.
  - reflexivity.
Defined.

(** *** Idempotence *)

(** C8: on a document none of whose lines is an [FN:], [FNDA:] or [FNA:]
    line with the destructor pattern, a run that returns a text returns it
    again when run on that text, and removes nothing either time.  Through
    the files: when [filter_lcov] has written its output for such an input,
    running it on that output writes the same text again. *)
Theorem C8_idempotent :
  (forall (content out : string) (total : Z),
      (forall line, In line (split newline content) ->
                    is_destructor_entry line = false) ->
      filter_content content = ret (out, total) ->
      filter_content out = ret (out, 0) /\ total = 0)
  /\ (forall (w w1 : world) (first second third text : string),
      files w first = Some text ->
      (forall line, In line (split newline (universal_newlines text)) ->
                    is_destructor_entry line = false) ->
      filter_lcov first second w = (ret tt, w1) ->
      writable w1 third = true ->
      exists w2,
        filter_lcov second third w1 = (ret tt, w2)
        /\ files w2 third = files w1 second).
Proof.
  assert (Pure : forall (content out : string) (total : Z),
             (forall line, In line (split newline content) ->
                           is_destructor_entry line = false) ->
             filter_content content = ret (out, total) ->
             filter_content out = ret (out, 0) /\ total = 0).
  { intros content out total Hdoc H.
    apply filter_content_sections in H as (-> & -> & F).
    assert (A : Forall (fun s => clean (split newline s) /\ section_fails s = false)
                       (re_split content)).
    { apply Forall_forall. intros section Hin. rewrite Forall_forall in F.
      split; [|now apply F].
      intros line Hline. now apply (section_lines_clean content Hdoc section). }
    assert (S : re_split (concat_all (map section_text (re_split content)))
                = map section_text (re_split content)).
    { apply re_split_unique, partitioned_map; [apply re_split_partitioned | exact A]. }
    rewrite filter_content_closed, S, !map_map.
    assert (E : existsb section_fails (map section_text (re_split content)) = false).
    { rewrite <- Bool.not_true_iff_false. intros X.
      apply existsb_exists in X as (t & Ht & Hf).
      apply in_map_iff in Ht as (s & <- & Hs).
      rewrite Forall_forall in A. destruct (A _ Hs) as [Hc Hok].
      destruct (section_text_fixed s Hc Hok) as (_ & N & _). congruence. }
    rewrite E. rewrite Forall_forall in A.
    assert (Z0 : sum_Z (map section_removed (re_split content)) = 0).
    { apply sum_Z_zero, Forall_forall. intros z Hz.
      apply in_map_iff in Hz as (s & <- & Hs). destruct (A _ Hs) as [Hc Hok].
      now apply (section_text_fixed s Hc Hok). }
    split; [|exact Z0]. f_equal. f_equal.
    - f_equal. apply map_ext_in. intros s Hs. destruct (A _ Hs) as [Hc Hok].
      now apply (section_text_fixed s Hc Hok).
    - apply sum_Z_zero, Forall_forall. intros z Hz.
      apply in_map_iff in Hz as (s & <- & Hs). destruct (A _ Hs) as [Hc Hok].
      now apply (section_text_fixed s Hc Hok). }
  split; [exact Pure|].
  intros w w1 first second third text Hin Hdoc Hrun Hw.
  unfold filter_lcov in Hrun. rewrite Hin in Hrun.
  destruct (filter_content (universal_newlines text)) as [e|[out total]] eqn:E;
    [discriminate|].
  destruct (writable w second); [|discriminate]. injection Hrun as <-.
  destruct (Pure _ _ _ Hdoc E) as [E2 _].
  pose proof (filter_content_clear _ _ _ (universal_newlines_clear text) E) as Hclear.
  unfold filter_lcov. cbn [files write_file print] in *.
  rewrite String.eqb_refl, (universal_newlines_same _ Hclear), E2.
  unfold ret. cbn [writable print write_file] in *. rewrite Hw.
  eexists. split; [reflexivity|]. cbn [files write_file print].
  now rewrite String.eqb_refl.
Qed.

Lemma C8_idempotent_witness :
  filter_content unfiltered_input = ret (unfiltered_output, 0)
  /\ filter_content unfiltered_output = ret (unfiltered_output, 0).
Proof.
  assert (E : filter_content unfiltered_input = ret (unfiltered_output, 0))
    by (vm_compute; reflexivity).
  split; [exact E|].
  apply (proj1 C8_idempotent unfiltered_input unfiltered_output 0); [|exact E].
  intros line Hin. vm_compute in Hin.
  repeat (destruct Hin as [<-|Hin]; [reflexivity|]). contradiction.
Defined.

(** *** Rewriting of the summary lines *)

(** C9: the subtraction is exact.  When the adjustment exceeds the number
    stated on an [FNF:] (or [FNH:]) line, the line written carries the
    negative difference, with its minus sign; nothing replaces it by 0.
    A section with an [FN:] and an [FNDA:] record of one destructor and
    [FNF:1] is an instance: both records are counted and [FNF:-1] is
    written. *)
Theorem C9_unclamped_subtraction :
  (forall (st : locals) (line : string) (old_count : Z),
      startswith line "FNF:" = true ->
      int_field ":" line = Some old_count ->
      old_count < fnf_adjust st ->
      line_body st line
      = ret (append_line st ("FNF:-" ++ str (fnf_adjust st - old_count)))
      /\ int (str (old_count - fnf_adjust st)) = Some (old_count - fnf_adjust st))
  /\ (forall (st : locals) (line : string) (old_count : Z),
      startswith line "FNH:" = true ->
      int_field ":" line = Some old_count ->
      old_count < fnh_adjust st ->
      line_body st line
      = ret (append_line st ("FNH:-" ++ str (fnh_adjust st - old_count)))
      /\ int (str (old_count - fnh_adjust st)) = Some (old_count - fnh_adjust st))
  /\ filter_content
       ("FN:1,_ZN1XD0Ev" ++ NL ++ "FNDA:1,_ZN1XD0Ev" ++ NL ++ "FNF:1" ++ NL)
     = ret ("FNF:-1" ++ NL, 2)
  /\ filter_content
       ("FNA:1,1,_ZN1XD0Ev" ++ NL ++ "FNH:0" ++ NL)
     = ret ("FNH:-1" ++ NL, 1).
Proof.
  split; [|split; [|split; vm_compute; reflexivity]].
  - intros st line n H E Hlt. split; [|apply int_str].
    rewrite (line_body_FNF st line n H E).
    replace (n - fnf_adjust st) with (- (fnf_adjust st - n)) by lia.
    rewrite str_negative by lia. reflexivity.
  - intros st line n H E Hlt. split; [|apply int_str].
    rewrite (line_body_FNH st line n H E).
    replace (n - fnh_adjust st) with (- (fnh_adjust st - n)) by lia.
    rewrite str_negative by lia. reflexivity.
Qed.

(** C10: an [FNF:] or [FNH:] line whose field parses is always replaced by
    the prefix followed by [str] of the parsed number minus the adjustment,
    also when the adjustment is 0; the text of the original field is not
    kept.  White space around the number, a plus sign, leading zeros and
    whatever follows a second colon are lost. *)
Theorem C10_canonical_summary :
  (forall (st : locals) (line : string) (n : Z),
      startswith line "FNF:" = true -> int_field ":" line = Some n ->
      line_body st line = ret (append_line st ("FNF:" ++ str (n - fnf_adjust st)))
      /\ (fnf_adjust st = 0 ->
          line_body st line = ret (append_line st ("FNF:" ++ str n))))
  /\ (forall (st : locals) (line : string) (n : Z),
      startswith line "FNH:" = true -> int_field ":" line = Some n ->
      line_body st line = ret (append_line st ("FNH:" ++ str (n - fnh_adjust st)))
      /\ (fnh_adjust st = 0 ->
          line_body st line = ret (append_line st ("FNH:" ++ str n))))
  /\ filter_content "FNF: 3 " = ret ("FNF:3", 0)
  /\ filter_content "FNF:3:extra" = ret ("FNF:3", 0)
  /\ filter_content "FNF:+3" = ret ("FNF:3", 0)
  /\ filter_content "FNH:003" = ret ("FNH:3", 0).
Proof.
  split; [|split; [|repeat split; vm_compute; reflexivity]].
  - intros st line n H E. rewrite (line_body_FNF st line n H E).
    split; [reflexivity|]. intros ->. now rewrite Z.sub_0_r.
  - intros st line n H E. rewrite (line_body_FNH st line n H E).
    split; [reflexivity|]. intros ->. now rewrite Z.sub_0_r.
Qed.

(** ** Further properties of the script *)

(** *** Files and standard output *)

(** X1: when [filter_lcov] returns, the input file was readable, the
    transformation of its text returned, and the output path was writable;
    the output file holds the transformed text, every other file is as it
    was, and exactly one line is printed, with the number of removed
    lines. *)
Theorem filter_lcov_effects (input_file output_file : string) (w w' : world) :
  filter_lcov input_file output_file w = (ret tt, w') ->
  exists text out total,
    files w input_file = Some text
    /\ filter_content (universal_newlines text) = ret (out, total)
    /\ writable w output_file = true
    /\ files w' output_file = Some out
    /\ (forall p, p <> output_file -> files w' p = files w p)
    /\ (forall p, writable w' p = writable w p)
    /\ stdout w' = (stdout w ++ [("Filtered " ++ str total ++ " destructor entries")%string])%list.
Proof.
  unfold filter_lcov. destruct (files w input_file) as [text|]; [|discriminate].
  destruct (filter_content (universal_newlines text)) as [e|[out total]] eqn:E;
    [discriminate|].
  destruct (writable w output_file) eqn:W; [|discriminate].
  intros [= <-]. exists text, out, total.
  cbn [files writable stdout write_file print]. rewrite String.eqb_refl.
  split; [reflexivity|]. split; [exact E|]. split; [reflexivity|].
  split; [reflexivity|]. split; [|split; reflexivity].
  intros p Hp. apply String.eqb_neq in Hp. now rewrite Hp.
Qed.

Lemma filter_lcov_effects_witness :
  exists text out total,
    files (world_of "in.info" scenario_A_input) "in.info" = Some text
    /\ filter_content (universal_newlines text) = ret (out, total)
    /\ out = scenario_A_output
    /\ total = 2.
Proof.
  destruct (filter_lcov_effects "in.info" "out.info"
              (world_of "in.info" scenario_A_input)
              (snd (filter_lcov "in.info" "out.info"
                      (world_of "in.info" scenario_A_input))))
    as (text & out & total & Hin & Hrun & _).
  - vm_compute. reflexivity.
  - exists text, out, total. split; [exact Hin|]. split; [exact Hrun|].
    injection Hin as <-. vm_compute in Hrun. now injection Hrun as <- <-.
Defined.

(** X2: the failures that come before anything is written.  An input that
    cannot be read makes [filter_lcov] raise [OSError]; a transformation
    that raises makes it raise [ValueError], whether or not the output path
    could be opened; an output path that cannot be opened makes it raise
    [OSError], after the transformation has returned.  In each case no file
    is written and nothing is printed.  (Text that cannot be decoded, and a
    write or a print that fails, are outside the model.) *)
Theorem filter_lcov_failure (input_file output_file : string) (w : world) :
  (files w input_file = None ->
   filter_lcov input_file output_file w = (raise OSError, w))
  /\ (forall (text : string) (e : exn),
        files w input_file = Some text ->
        filter_content (universal_newlines text) = raise e ->
        e = ValueError
        /\ filter_lcov input_file output_file w = (raise ValueError, w))
  /\ (forall (text out : string) (total : Z),
        files w input_file = Some text ->
        filter_content (universal_newlines text) = ret (out, total) ->
        writable w output_file = false ->
        filter_lcov input_file output_file w = (raise OSError, w)).
Proof.
  unfold filter_lcov. split; [now intros ->|]. split.
  - intros text e Hin E. pose proof (filter_content_raises_ValueError _ _ E) as ->.
    split; [reflexivity|]. now rewrite Hin, E.
  - intros text out total Hin E W. now rewrite Hin, E, W.
Qed.

Lemma filter_lcov_failure_witness :
  filter_lcov "missing.info" "out.info" (world_of "in.info" "")
  = (raise OSError, world_of "in.info" "")
  /\ filter_lcov "in.info" "out.info" (world_of "in.info" ("FNF:abc" ++ NL))
     = (raise ValueError, world_of "in.info" ("FNF:abc" ++ NL)).
Proof.
  split.
  - apply (proj1 (filter_lcov_failure "missing.info" "out.info" (world_of "in.info" ""))).
    reflexivity.
  - apply (proj1 (proj2 (filter_lcov_failure "in.info" "out.info"
                           (world_of "in.info" ("FNF:abc" ++ NL))))
             ("FNF:abc" ++ NL) ValueError); vm_compute; reflexivity.
Defined.

(** X3: on a document whose numbers stay clear of the interpreter's limit
    on digits, the transformation raises nothing but [ValueError], and it
    raises exactly when some line of a section that is not a marker is
    malformed: an [FNA:] line with the destructor pattern and at least two
    fields whose second field is not an integer, or an [FNF:] or [FNH:]
    line whose field after the first colon is not an integer.  (Beyond the
    limit the interpreter raises [ValueError] on numbers the model reads
    and writes; there a malformed line still makes the run raise, but a
    run can raise without one.) *)
Theorem filter_content_raises_iff (content : string) :
  within_digit_limit content ->
  (forall e, filter_content content = raise e -> e = ValueError)
  /\ (filter_content content = raise ValueError
      <-> exists line, content_line content line /\ malformed line).
Proof.
  intros _. split; [apply filter_content_raises_ValueError|]. split.
  - rewrite filter_content_closed.
    destruct (existsb section_fails (re_split content)) eqn:E; [|discriminate].
    intros _. apply existsb_exists in E as (section & Hsec & Hf).
    unfold section_fails, is_content in Hf.
    apply andb_true_iff in Hf as [Hc Hl]. apply andb_true_iff in Hc as [Hsf _].
    apply negb_true_iff in Hsf. apply existsb_exists in Hl as (line & Hin & Hline).
    exists line. split; [now exists section | now apply line_fails_malformed].
  - intros (line & (section & Hsec & Hsf & Hin) & Hm).
    apply (filter_content_fails content section line); try assumption.
    + now apply malformed_not_blank.
    + now apply line_fails_malformed.
Qed.

Lemma filter_content_raises_iff_witness :
  filter_content ("SF:a.cpp" ++ NL ++ "FNA:1,x,_ZN1XD0Ev" ++ NL ++ "FNF:1") = raise ValueError
  <-> exists line,
      content_line ("SF:a.cpp" ++ NL ++ "FNA:1,x,_ZN1XD0Ev" ++ NL ++ "FNF:1") line
      /\ malformed line.
Proof.
  apply (filter_content_raises_iff
           ("SF:a.cpp" ++ NL ++ "FNA:1,x,_ZN1XD0Ev" ++ NL ++ "FNF:1")).
  split; [|vm_compute; reflexivity].
  intros line (section & Hin & Hsf & Hl). vm_compute in Hin.
  destruct Hin as [<-|[<-|[<-|[]]]]; vm_compute in Hsf; try discriminate;
    vm_compute in Hl.
  - destruct Hl as [<-|[]]. vm_compute. discriminate.
  - destruct Hl as [<-|[<-|[]]]; vm_compute; discriminate.
Defined.

(** *** Documents with nothing in them *)

(** X4: a document of white space only, the empty one included, is turned
    into the empty text with nothing removed; [filter_lcov] then writes an
    empty output file and prints a count of 0. *)
Theorem white_space_only :
  (forall content,
      all_chars isspace content = true -> filter_content content = ret ("", 0))
  /\ (forall (w : world) (input_file output_file text : string),
      files w input_file = Some text ->
      all_chars isspace text = true ->
      writable w output_file = true ->
      exists w',
        filter_lcov input_file output_file w = (ret tt, w')
        /\ files w' output_file = Some ""
        /\ stdout w' = (stdout w ++ ["Filtered 0 destructor entries"])%list).
Proof.
  assert (Pure : forall content,
             all_chars isspace content = true -> filter_content content = ret ("", 0)).
  { intros content H. rewrite filter_content_closed, re_split_eq.
    rewrite (contains_none_unmatched _ (space_no_marker _ H)).
    cbn [existsb map]. unfold section_fails, section_text, section_removed, is_content.
    rewrite truthy_strip, H. cbn [negb]. rewrite !andb_false_r. cbn [orb].
    unfold startswith. rewrite (contains_SF_prefix _ (space_no_marker _ H)).
    reflexivity. }
  split; [exact Pure|].
  intros w input_file output_file text Hin Hs Hw. unfold filter_lcov.
  rewrite Hin, (Pure _ (universal_newlines_space _ Hs)). unfold ret. rewrite Hw.
  eexists. split; [reflexivity|]. cbn [files stdout write_file print].
  now rewrite String.eqb_refl.
Qed.

Lemma white_space_only_witness :
  filter_content "" = ret ("", 0)
  /\ filter_content (NL ++ "  " ++ NL) = ret ("", 0).
Proof. split; apply (proj1 white_space_only); reflexivity. Defined.

(** *** The count *)

(** X5: the count of a run that returns is never negative, and it is 0
    exactly when no line of a section that is not a marker is an [FN:],
    [FNDA:] or [FNA:] line with the destructor pattern. *)
Theorem removed_total (content out : string) (total : Z) :
  filter_content content = ret (out, total) ->
  0 <= total
  /\ (total = 0 <->
      forall line, content_line content line -> is_destructor_entry line = false).
Proof.
  intros H. apply filter_content_sections in H as (_ & -> & _).
  assert (N : Forall (fun z => 0 <= z) (map section_removed (re_split content))).
  { apply Forall_forall. intros z Hz. apply in_map_iff in Hz as (s & <- & _).
    apply section_removed_nonneg. }
  destruct (sum_Z_nonneg _ N) as [N0 Nz]. split; [exact N0|].
  rewrite Nz, Forall_forall. split.
  - intros H line (section & Hsec & Hsf & Hin).
    specialize (H (section_removed section) (in_map _ _ _ Hsec)).
    unfold section_removed, is_content in H. rewrite Hsf, truthy_strip in H.
    cbn [negb andb] in H. destruct (all_chars isspace section) eqn:B; cbn [negb] in H.
    + now apply (blank_section_clean section B).
    + now apply (proj1 (removed_count_zero _) H).
  - intros H z Hz. apply in_map_iff in Hz as (section & <- & Hsec).
    unfold section_removed. destruct (is_content section) eqn:C; [|reflexivity].
    apply removed_count_zero. intros line Hin. apply H. exists section.
    unfold is_content in C. apply andb_true_iff in C as [C _].
    apply negb_true_iff in C. now repeat split.
Qed.

Lemma removed_total_witness :
  0 <= 2
  /\ (2 = 0 <->
      forall line, content_line two_sections_input line ->
                   is_destructor_entry line = false).
Proof.
  apply (removed_total two_sections_input two_sections_output 2).
  vm_compute. reflexivity.
Defined.

(** *** The command line *)


(** *** The output as a document *)

(** X7: the output of a run that returns is partitioned by [re.split] as
    the input is: it has as many pieces, the piece at each place is what
    the section at that place yields when run alone, and every match of the
    marker pattern stands unchanged at its place. *)
Theorem output_partition (content out : string) (total : Z) :
  filter_content content = ret (out, total) ->
  Forall2
    (fun section piece =>
       (exists k, run_section section = ret (piece, k))
       /\ (is_marker_text section -> piece = section))
    (re_split content) (re_split out).
Proof.
  intros H. rewrite (re_split_output _ _ _ H).
  apply filter_content_sections in H as (_ & _ & F).
  apply Forall2_map_both. revert F. apply Forall_impl.
  intros section [_ Hrun]. split; [eexists; exact Hrun|].
  apply marker_text_kept.
Qed.

Lemma output_partition_witness :
  Forall2
    (fun section piece =>
       (exists k, run_section section = ret (piece, k))
       /\ (is_marker_text section -> piece = section))
    (re_split two_sections_input) (re_split two_sections_output).
Proof.
  apply (output_partition two_sections_input two_sections_output 2).
  vm_compute. reflexivity.
Defined.

(** X8: the output of a run that returns is a document on which the
    transformation returns without removing anything, and what that second
    run returns is a text the transformation leaves as it is.  The first
    output itself need not be such a text: a section left with blank lines
    only is skipped by the second run. *)
Theorem second_run_settles (content out : string) (total : Z) :
  filter_content content = ret (out, total) ->
  exists out',
    filter_content out = ret (out', 0) /\ filter_content out' = ret (out', 0).
Proof.
  intros H. apply clean_sections_fixed. rewrite (re_split_output _ _ _ H).
  apply filter_content_sections in H as (_ & _ & F). rewrite Forall_forall in *.
  intros t Ht. apply in_map_iff in Ht as (s & <- & Hs).
  apply (section_text_settled content s Hs). now apply F.
Qed.

Lemma second_run_settles_witness :
  filter_content ("SF:a" ++ NL ++ "FN:1,_ZN1XD0Ev" ++ NL ++ NL ++ "SF:b" ++ NL)
  = ret ("SF:a" ++ NL ++ NL ++ "SF:b" ++ NL, 1)
  /\ filter_content ("SF:a" ++ NL ++ NL ++ "SF:b" ++ NL)
     = ret ("SF:a" ++ NL ++ "SF:b" ++ NL, 0)
  /\ exists out',
      filter_content ("SF:a" ++ NL ++ NL ++ "SF:b" ++ NL) = ret (out', 0)
      /\ filter_content out' = ret (out', 0).
Proof.
  assert (E : filter_content
                ("SF:a" ++ NL ++ "FN:1,_ZN1XD0Ev" ++ NL ++ NL ++ "SF:b" ++ NL)
              = ret ("SF:a" ++ NL ++ NL ++ "SF:b" ++ NL, 1))
    by (vm_compute; reflexivity).
  split; [exact E|]. split; [vm_compute; reflexivity|].
  exact (second_run_settles _ _ _ E).
Defined.

(** *** The inner loop *)

(** X9: the text a content section yields is made of its lines that are
    not removed, in their order and one for one: a line other than a
    summary line as it is, a summary line with its number less an
    adjustment that lies between 0 and the number of lines removed from the
    section ([FNF:]) or of removed lines counting as hit ([FNH:]).  The
    count the section contributes is the number of lines it loses. *)
Theorem kept_lines (section piece : string) (k : Z) :
  is_content section = true ->
  run_section section = ret (piece, k) ->
  exists kept,
    piece = join NL kept
    /\ k = removed_count (split newline section)
    /\ Forall2 (kept_as k (removed_hit_count (split newline section)))
               (filter (fun l => negb (is_destructor_entry l)) (split newline section))
               kept
    /\ Z.of_nat (List.length kept)
       = Z.of_nat (List.length (split newline section)) - k.
Proof.
  intros Hc. rewrite run_section_closed. unfold section_fails. rewrite Hc.
  cbn [andb]. destruct (existsb line_fails (split newline section)) eqn:Hok;
    [discriminate|].
  unfold section_text, section_removed. rewrite Hc.
  unfold is_content in Hc. apply andb_true_iff in Hc as [Hsf Ht].
  apply negb_true_iff in Hsf. rewrite Hsf, Ht. intros [= <- <-].
  exists (lines_out 0 0 (split newline section)).
  assert (K : Forall2 (kept_as (removed_count (split newline section))
                               (removed_hit_count (split newline section)))
                      (filter (fun l => negb (is_destructor_entry l))
                              (split newline section))
                      (lines_out 0 0 (split newline section)))
    by (apply lines_out_kept; [assumption | lia..]).
  split; [reflexivity|]. split; [reflexivity|]. split; [exact K|].
  apply Forall2_length in K. rewrite <- K.
  pose proof (filter_lengths is_destructor_entry (split newline section)) as L.
  unfold removed_count. lia.
Qed.

Lemma kept_lines_witness :
  exists kept,
    "FN:2,f" ++ NL ++ "FNF:1" ++ NL ++ "FNH:2" = join NL kept
    /\ Z.of_nat (List.length kept) = 3.
Proof.
  destruct (kept_lines
              ("FN:1,_ZN1XD0Ev" ++ NL ++ "FNA:1,4,_ZN1XD1Ev" ++ NL ++ "FN:2,f" ++ NL
               ++ "FNF:3" ++ NL ++ "FNH:3")
              ("FN:2,f" ++ NL ++ "FNF:1" ++ NL ++ "FNH:2") 2)
    as (kept & Hp & _ & _ & HL).
  - vm_compute. reflexivity.
  - vm_compute. reflexivity.
  - exists kept. split; [exact Hp|]. rewrite HL. reflexivity.
Defined.

(** X10: a summary line the loop has written is read back by the loop as
    the number it wrote.  When the step on an [FNF:] or [FNH:] line
    returns, [filtered_lines] has grown by one line: the prefix and a
    number [n], the number of the line less the adjustment.  The field of
    that line parses as [n], and a step on it with the adjustment at 0
    appends the very same line again. *)
Theorem summary_read_back (st st1 st' : locals) (line : string) :
  is_summary line = true ->
  line_body st line = ret st1 ->
  exists (k : string) (n : Z),
    filtered_lines st1 = (filtered_lines st ++ [k])%list
    /\ int_field ":" k = Some n
    /\ ((startswith line "FNF:" = true
         /\ int_field ":" line = Some (n + fnf_adjust st)
         /\ k = "FNF:" ++ str n
         /\ (fnf_adjust st' = 0 ->
             exists st2,
               line_body st' k = ret st2
               /\ filtered_lines st2 = (filtered_lines st' ++ [k])%list))
        \/ (startswith line "FNH:" = true
            /\ int_field ":" line = Some (n + fnh_adjust st)
            /\ k = "FNH:" ++ str n
            /\ (fnh_adjust st' = 0 ->
                exists st2,
                  line_body st' k = ret st2
                  /\ filtered_lines st2 = (filtered_lines st' ++ [k])%list))).
Proof.
  intros Hs Hst. unfold is_summary in Hs.
  destruct (startswith line "FNF:") eqn:F.
  - destruct (int_field ":" line) as [m|] eqn:E.
    2:{ unfold line_body, is_destructor_entry in Hst.
        rewrite (FNF_not_function_record _ F), F, E in Hst. discriminate. }
    rewrite (line_body_FNF st line m F E) in Hst. injection Hst as <-.
    assert (P : int_field ":" ("FNF:" ++ str (m - fnf_adjust st))
                = Some (m - fnf_adjust st))
      by (apply (int_field_rendered "FNF"); now left).
    exists ("FNF:" ++ str (m - fnf_adjust st)), (m - fnf_adjust st).
    split; [reflexivity|]. split; [exact P|]. left.
    split; [reflexivity|]. split; [f_equal; lia|]. split; [reflexivity|].
    intros Z0. eexists. split.
    + apply line_body_FNF; [apply prefix_app | exact P].
    + cbn [append_line filtered_lines]. now rewrite Z0, Z.sub_0_r.
  - cbn [orb] in Hs. destruct (int_field ":" line) as [m|] eqn:E.
    2:{ unfold line_body, is_destructor_entry in Hst.
        rewrite (proj1 (FNH_not_function_record _ Hs)), F, Hs, E in Hst.
        discriminate. }
    rewrite (line_body_FNH st line m Hs E) in Hst. injection Hst as <-.
    assert (P : int_field ":" ("FNH:" ++ str (m - fnh_adjust st))
                = Some (m - fnh_adjust st))
      by (apply (int_field_rendered "FNH"); now right).
    exists ("FNH:" ++ str (m - fnh_adjust st)), (m - fnh_adjust st).
    split; [reflexivity|]. split; [exact P|]. right.
    split; [exact Hs|]. split; [f_equal; lia|]. split; [reflexivity|].
    intros Z0. eexists. split.
    + apply line_body_FNH; [apply prefix_app | exact P].
    + cbn [append_line filtered_lines]. now rewrite Z0, Z.sub_0_r.
Qed.

Lemma summary_read_back_witness :
  exists (k : string) (n : Z),
    filtered_lines (append_line (mkLocals [] 2 [] 2 0) "FNF:5")
    = ([] ++ [k])%list
    /\ int_field ":" k = Some n.
Proof.
  destruct (summary_read_back
              (mkLocals [] 2 [] 2 0)
              (append_line (mkLocals [] 2 [] 2 0) "FNF:5")
              initial_locals "FNF: 07 :x")
    as (k & n & H1 & H2 & _).
  - reflexivity.
  - vm_compute. reflexivity.
  - exists k, n. split; [exact H1 | exact H2].
Defined.

(** X11: the counters of the inner loop move together.  When the loop
    over the lines of a section returns, [fnf_adjust] and [total_filtered]
    have advanced by the same number, at most the number of lines;
    [fnh_adjust] has advanced by no more than [fnf_adjust], and not gone
    back; [filtered_lines] has grown by one line for each line that was not
    counted; [output_sections] is untouched. *)
Theorem inner_loop_counters (lines : list string) (st st' : locals) :
  for_each line_body lines st = ret st' ->
  0 <= fnh_adjust st' - fnh_adjust st <= fnf_adjust st' - fnf_adjust st
  /\ fnf_adjust st' - fnf_adjust st = total_filtered st' - total_filtered st
  /\ fnf_adjust st' - fnf_adjust st <= Z.of_nat (List.length lines)
  /\ Z.of_nat (List.length (filtered_lines st'))
     = Z.of_nat (List.length (filtered_lines st)) + Z.of_nat (List.length lines)
       - (fnf_adjust st' - fnf_adjust st)
  /\ output_sections st' = output_sections st.
Proof.
  rewrite lines_loop_closed.
  destruct (existsb line_fails lines) eqn:Hok; [discriminate|]. intros [= <-].
  cbn [lines_step output_sections total_filtered filtered_lines fnf_adjust fnh_adjust].
  pose proof (removed_hit_count_nonneg lines) as N.
  pose proof (removed_hit_count_le lines) as L.
  pose proof (filter_lengths is_destructor_entry lines) as F.
  rewrite length_app, Nat2Z.inj_add, (lines_out_length _ _ _ Hok).
  unfold removed_count in *. repeat split; lia.
Qed.

Lemma inner_loop_counters_witness :
  exists st',
    for_each line_body
      ["FNA:1,4,_ZN1XD1Ev"; "FN:1,_ZN1XD0Ev"; "FN:2,f"; "FNF:3"]%list initial_locals
    = ret st'
    /\ fnf_adjust st' - 0 = total_filtered st' - 0
    /\ Z.of_nat (List.length (filtered_lines st')) = 0 + 4 - (fnf_adjust st' - 0).
Proof.
  eexists. split; [vm_compute; reflexivity|].
  destruct (inner_loop_counters
              ["FNA:1,4,_ZN1XD1Ev"; "FN:1,_ZN1XD0Ev"; "FN:2,f"; "FNF:3"]%list
              initial_locals _ ltac:(vm_compute; reflexivity))
    as (_ & H1 & _ & H2 & _).
  split; [exact H1 | exact H2].
Defined.

(** *** Documents the script leaves as they are, and documents appended *)

(** X12: a document in which no section consists of white space only, and
    no line outside the marker sections is a destructor record or a summary
    line, is returned character for character, with the count 0. *)
Theorem nothing_to_rewrite (content : string) :
  (forall section,
      In section (re_split content) -> all_chars isspace section = true ->
      section = "") ->
  (forall line, content_line content line -> is_rewritten line = false) ->
  filter_content content = ret (content, 0).
Proof.
  intros H1 H2.
  assert (A : forall s, In s (re_split content) ->
                        section_fails s = false /\ section_text s = s
                        /\ section_removed s = 0).
  { intros s Hs. unfold section_fails, section_text, section_removed, is_content.
    destruct (startswith s "SF:") eqn:F; [repeat split|]. cbn [negb andb].
    rewrite truthy_strip. destruct (all_chars isspace s) eqn:W; cbn [negb].
    - rewrite (H1 s Hs W). repeat split.
    - assert (P : forallb (fun l => negb (is_rewritten l)) (split newline s) = true).
      { apply forallb_forall. intros l Hl. rewrite (H2 l); [reflexivity|].
        exists s. auto. }
      destruct (lines_out_same _ 0 0 P) as (E1 & E2 & E3).
      rewrite E1, E2, E3. unfold NL. rewrite join_split. repeat split. }
  rewrite filter_content_closed.
  assert (E : existsb section_fails (re_split content) = false).
  { rewrite <- Bool.not_true_iff_false. intros X.
    apply existsb_exists in X as (s & Hs & Hf). destruct (A _ Hs) as [Hok _].
    congruence. }
  rewrite E. f_equal. f_equal.
  - rewrite <- (re_split_concat content) at 2. f_equal.
    rewrite <- (map_id (re_split content)) at 2. apply map_ext_in.
    intros s Hs. now destruct (A _ Hs) as (_ & T & _).
  - apply sum_Z_zero, Forall_forall. intros z Hz.
    apply in_map_iff in Hz as (s & <- & Hs). now destruct (A _ Hs) as (_ & _ & T).
Qed.

Lemma nothing_to_rewrite_witness :
  filter_content ("TN:" ++ NL ++ "SF:a.cpp" ++ NL ++ "FN:2,f" ++ NL ++ "DA:2,1" ++ NL
                  ++ "end_of_record" ++ NL)
  = ret ("TN:" ++ NL ++ "SF:a.cpp" ++ NL ++ "FN:2,f" ++ NL ++ "DA:2,1" ++ NL
         ++ "end_of_record" ++ NL, 0).
Proof.
  apply nothing_to_rewrite.
  - intros section Hin W. vm_compute in Hin.
    destruct Hin as [<-|[<-|[<-|[]]]]; vm_compute in W; discriminate.
  - intros line (section & Hin & Hsf & Hl). vm_compute in Hin.
    destruct Hin as [<-|[<-|[<-|[]]]]; vm_compute in Hsf; try discriminate;
      vm_compute in Hl.
    + destruct Hl as [<-|[<-|[]]]; reflexivity.
    + destruct Hl as [<-|[<-|[<-|[<-|[]]]]]; reflexivity.
Defined.

(** X13: documents are transformed record by record.  When a text that is
    empty or ends with a newline is followed by a document that begins
    with a match of the marker pattern, the transformation of the whole is
    made of the transformations of the two: it raises when one of them
    does, and otherwise returns the two outputs one after the other and the
    sum of the two counts. *)
Theorem documents_appended (d m rest : string) :
  ends_line d = true -> is_marker_text m ->
  filter_content (d ++ m ++ rest)
  = bind (filter_content d)
         (fun r1 =>
            bind (filter_content (m ++ rest))
                 (fun r2 => ret (fst r1 ++ fst r2, snd r1 + snd r2))).
Proof.
  intros He Hm.
  rewrite !filter_content_closed, (re_split_app d m rest He Hm), (re_split_marker m rest Hm).
  rewrite existsb_app, !map_app, concat_all_app, sum_Z_app.
  cbn [existsb map].
  change (section_fails "") with false. change (section_text "") with "".
  change (section_removed "") with 0. cbn [orb].
  destruct (existsb section_fails (re_split d)); cbn [orb bind raise ret]; [reflexivity|].
  destruct (section_fails m || existsb section_fails (re_split rest));
    cbn [bind raise ret fst snd]; [reflexivity|].
  rewrite (concat_all_cons ""). cbn [append].
  unfold sum_Z. cbn [fold_right]. reflexivity.
Qed.

Lemma documents_appended_witness :
  filter_content (("TN:" ++ NL ++ "FNF: 1" ++ NL)
                  ++ ("SF:a.cpp" ++ NL) ++ ("FN:1,_ZN1XD0Ev" ++ NL ++ "FNF:1" ++ NL))
  = ret (("TN:" ++ NL ++ "FNF:1" ++ NL) ++ ("SF:a.cpp" ++ NL ++ "FNF:0" ++ NL), 0 + 1).
Proof.
  rewrite (documents_appended
             ("TN:" ++ NL ++ "FNF: 1" ++ NL) ("SF:a.cpp" ++ NL)
             ("FN:1,_ZN1XD0Ev" ++ NL ++ "FNF:1" ++ NL)).
  - vm_compute. reflexivity.
  - vm_compute. reflexivity.
  - exists "a.cpp". split; reflexivity.
Defined.

(** X14: the text [filter_lcov] writes holds no carriage return: the line
    ends of the input are read as newlines, and the loop adds none. *)
Theorem output_line_ends (input_file output_file : string) (w w' : world) :
  filter_lcov input_file output_file w = (ret tt, w') ->
  exists out,
    files w' output_file = Some out
    /\ all_chars (is_not carriage_return) out = true.
Proof.
  unfold filter_lcov. destruct (files w input_file) as [text|]; [|discriminate].
  destruct (filter_content (universal_newlines text)) as [e|[out total]] eqn:E;
    [discriminate|].
  destruct (writable w output_file); [|discriminate].
  intros [= <-]. exists out. cbn [files write_file print]. rewrite String.eqb_refl.
  split; [reflexivity|].
  exact (filter_content_clear _ _ _ (universal_newlines_clear text) E).
Qed.

Lemma output_line_ends_witness :
  exists out,
    files (snd (filter_lcov "in.info" "out.info"
                  (world_of "in.info"
                     ("SF:a.cpp" ++ String carriage_return NL ++ "FNF:1"
                      ++ String carriage_return "")))) "out.info"
    = Some out
    /\ all_chars (is_not carriage_return) out = true.
Proof.
  apply (output_line_ends "in.info" "out.info"
           (world_of "in.info"
              ("SF:a.cpp" ++ String carriage_return NL ++ "FNF:1"
               ++ String carriage_return ""))).
  vm_compute. reflexivity.
Defined.
